(** * Recording-to-analysis pipeline of the meeting assistant (src/src/App.jsx)

    A shallow embedding of the stateful parts of the [App] component:
    the stereo-to-mono downmix, the analysis request, the recording
    start/stop handlers and the stop-to-analysis callback chain.

    JavaScript numbers are IEEE binary64 values ([PrimFloat.float]); a
    [Float32Array] stores the binary32 rounding of what is written to
    it.  React state and refs are one record, threaded through a small
    state-and-exception monad; a rejected promise or a thrown error is
    the [Throw] outcome.  A handler reads the hook values of the render
    that created it: where a handler outlives its render, the values its
    closure holds are arguments of the transformer ([stopRecording_with],
    [analyzeWithOpenAI_with], [onloadend_with]), and the transformer
    without them is the handler of the latest render. *)

From Stdlib Require Import ZArith NArith String Ascii List Lia.
From Stdlib.Strings Require Import Byte.
From Stdlib Require Import PrimFloat SpecFloat FloatOps DecimalString.
From stdpp Require Import base list.

Local Open Scope string_scope.
#[local] Set Warnings "-register-all".

(** ** Errors and outcomes *)

(** The error objects the code can see: [new Error(msg)] of the source,
    the built-in [TypeError] and [SyntaxError], and the [DOMException]s
    of the browser APIs. *)
Inductive exn : Type :=
| Error (message : string)
| TypeError (message : string)
| SyntaxError (message : string)
| DOMException (name message : string).

(** [e.message] *)
Definition message_of (e : exn) : string :=
  match e with
  | Error m | TypeError m | SyntaxError m | DOMException _ m => m
  end.

(** Completion of an evaluation: a value, or a thrown error (for an
    awaited promise: fulfilled or rejected). *)
Inductive outcome (A : Type) : Type :=
| Return (a : A)
| Throw (e : exn).
Arguments Return {A} a.
Arguments Throw {A} e.

Definition outcome_bind {A B} (o : outcome A) (k : A -> outcome B) : outcome B :=
  match o with
  | Return a => k a
  | Throw e => Throw e
  end.

(** ** Numbers and typed arrays *)

(** [Math.fround]: the conversion applied by every store into a
    [Float32Array] (round to nearest binary32, ties to even). *)
Definition fround (x : float) : float :=
  match Prim2SF x with
  | S754_finite s m e => SF2Prim (binary_round 24 128 s m e)
  | _ => x
  end.

(** [ToNumber] of an element read: a read past the end of an array is
    [undefined], which arithmetic turns into [NaN]. *)
Definition ToNumber (v : option float) : float := default nan v.

Module Float32Array.
Abbreviation t := (list float) (only parsing).

(** [new Float32Array(n)]: [n] zeros. *)
Definition new (n : nat) : t := replicate n 0%float.

(** [a[i] = v]: rounds to single precision; an index past the end is
    ignored (typed arrays never grow). *)
Definition set (a : t) (i : nat) (v : float) : t := <[i := fround v]> a.
End Float32Array.

(** ** Decoded audio *)

Module AudioBuffer.
(** The result of [decodeAudioData]: [length] sample frames in each
    of the channels. *)
Record t : Type := mk {
  length : nat;
  channels : list Float32Array.t;
}.

Definition numberOfChannels (b : t) : nat := List.length (channels b).

(** [getChannelData(k)] throws an IndexSizeError for a channel that
    does not exist. *)
Definition getChannelData (b : t) (k : nat) : outcome Float32Array.t :=
  match channels b !! k with
  | Some c => Return c
  | None => Throw (DOMException "IndexSizeError" "channel index out of range")
  end.

(** What the Web Audio API guarantees of every buffer it hands out. *)
Definition wf (b : t) : Prop :=
  Forall (fun c => List.length c = length b) (channels b).
End AudioBuffer.

(** [const SCALING_FACTOR = Math.sqrt(2)] (line 143) *)
Definition SCALING_FACTOR : float := PrimFloat.sqrt 2.

(** The [for] loop of lines 149-151. *)
Definition downmix_loop (decoded_length : nat) (left right : Float32Array.t)
    (audio : Float32Array.t) : Float32Array.t :=
  foldl
    (fun audio i =>
       Float32Array.set audio i
         (SCALING_FACTOR * (ToNumber (left !! i) + ToNumber (right !! i)) / 2)%float)
    audio (seq 0 decoded_length).

(** What iteration [i] of the loop stores in [audio[i]]. *)
Definition mixed_sample (left right : Float32Array.t) (i : nat) : float :=
  fround (SCALING_FACTOR * (ToNumber (left !! i) + ToNumber (right !! i)) / 2)%float.

(** Lines 141-155 of [fileReader.onloadend]: the value of [audio]. *)
Definition downmix (decoded : AudioBuffer.t) : outcome Float32Array.t :=
  if Nat.eqb (AudioBuffer.numberOfChannels decoded) 2 then
    outcome_bind (AudioBuffer.getChannelData decoded 0) (fun left =>
    outcome_bind (AudioBuffer.getChannelData decoded 1) (fun right =>
    Return (downmix_loop (AudioBuffer.length decoded) left right
              (Float32Array.new (List.length left)))))
  else
    (* If the audio is not stereo, we can just use the first channel *)
    AudioBuffer.getChannelData decoded 0.

(** ** Values of the analysis service's reply *)

(** The JavaScript values a JSON reply can hold, and [undefined]. *)
Inductive value : Type :=
| VUndefined
| VNull
| VBool (b : bool)
| VNum (x : float)
| VStr (s : string)
| VArr (elems : list value)
| VObj (props : list (string * value)).

(** The own property [k] of an object, [undefined] when absent. *)
Fixpoint own_property (k : string) (props : list (string * value)) : value :=
  match props with
  | [] => VUndefined
  | (k', v) :: rest => if String.eqb k k' then v else own_property k rest
  end.

(** [v.k], for the names the source reads ([choices], [message],
    [content]): none of them is a property of an array, a string, a
    number or a boolean, and reading from [undefined] or [null] throws. *)
Definition get_prop (v : value) (k : string) : outcome value :=
  match v with
  | VUndefined =>
      Throw (TypeError ("Cannot read properties of undefined (reading '" ++ k ++ "')"))
  | VNull =>
      Throw (TypeError ("Cannot read properties of null (reading '" ++ k ++ "')"))
  | VObj props => Return (own_property k props)
  | _ => Return VUndefined
  end.

(** Strings hold their text in UTF-8, a lone surrogate in the
    three-byte form of the same scheme.  The low six bits of a
    continuation byte: *)
Definition continuation_bits (c : ascii) : N := N.land (N_of_ascii c) 63.

(** [s[0]] for a string: its first UTF-16 code unit.  A character up to
    U+FFFF is one unit, written in one, two or three bytes; a character
    above it is two units, and the first, the high surrogate, is
    computed from its four bytes.  (Bytes that are no such text give
    their first byte.) *)
Definition first_code_unit (s : string) : string :=
  match s with
  | EmptyString => EmptyString
  | String c0 rest =>
      let b0 := N_of_ascii c0 in
      if (b0 <? 192)%N then String c0 EmptyString
      else if (b0 <? 224)%N then
        match rest with
        | String c1 _ => String c0 (String c1 EmptyString)
        | _ => String c0 EmptyString
        end
      else if (b0 <? 240)%N then
        match rest with
        | String c1 (String c2 _) => String c0 (String c1 (String c2 EmptyString))
        | _ => String c0 EmptyString
        end
      else
        match rest with
        | String c1 (String c2 (String c3 _)) =>
            let point :=
              (N.shiftl (N.land b0 7) 18 + N.shiftl (continuation_bits c1) 12
               + N.shiftl (continuation_bits c2) 6 + continuation_bits c3)%N in
            let high := (55296 + N.shiftr (point - 65536) 10)%N in
            String (ascii_of_N (224 + N.shiftr high 12))
              (String (ascii_of_N (128 + N.land (N.shiftr high 6) 63))
                 (String (ascii_of_N (128 + N.land high 63)) EmptyString))
        | _ => String c0 EmptyString
        end
  end.

(** [v[0]] *)
Definition get_index0 (v : value) : outcome value :=
  match v with
  | VUndefined => Throw (TypeError "Cannot read properties of undefined (reading '0')")
  | VNull => Throw (TypeError "Cannot read properties of null (reading '0')")
  | VArr elems => Return (default VUndefined (elems !! 0))
  | VObj props => Return (own_property "0" props)
  | VStr (String c rest) => Return (VStr (first_code_unit (String c rest)))
  | _ => Return VUndefined
  end.

(** [data.choices[0].message.content] (line 97) *)
Definition choices0_message_content (data : value) : outcome value :=
  outcome_bind (get_prop data "choices") (fun choices =>
  outcome_bind (get_index0 choices) (fun choice =>
  outcome_bind (get_prop choice "message") (fun message =>
  get_prop message "content"))).

(** ** The analysis service *)

Definition newline : string := String (ascii_of_nat 10) EmptyString.
Definition dquote : string := String (ascii_of_nat 34) EmptyString.

(** The system message of lines 66-76, a template literal that keeps its
    line breaks and indentation. *)
Definition system_prompt : string :=
  String.concat newline
    [ "You are an AI assistant specialized in analyzing transcribed speech with a focus on business intelligence. Your task is to:";
      "                        1. Identify and provide relevant information about any companies mentioned";
      "                        2. Identify and analyze any products or services discussed";
      "                        3. Provide additional context and market insights about the identified companies/products";
      "                        4. Highlight any relevant industry trends or competitive dynamics mentioned";
      "                        5. Structure your response in JSON format with the following keys as an array of strings:";
      "                        - contextualAnalysis: A brief overview of the main discussion points";
      "                        - companies: Array of identified companies with name and industry";
      "                        - products: Array of identified products with name and descriptions";
      "                        - relatedInfo: Additional market insights or trends";
      "                        Keep your analysis factual and business-focused while maintaining a natural, conversational tone." ].

Module Request.
(** A [fetch] call: the address, the options, and the object handed to
    [JSON.stringify] as the body. *)
Record t : Type := mk {
  url : string;
  method : string;
  content_type : string;
  authorization : string;
  model : string;
  system_content : string;
  user_content : string;
  response_format : string;
  max_tokens : N;
  temperature : float;
}.
End Request.

Module Response.
(** A reply: its HTTP status, and what [response.json()] resolves to or
    rejects with. *)
Record t : Type := mk {
  status : N;
  json : outcome value;
}.

(** [response.ok]: the status is in the range 200-299. *)
Definition ok (r : t) : bool := (200 <=? status r)%N && (status r <=? 299)%N.
End Response.

(** The request of lines 55-87 for a credential and a transcript. *)
Definition chat_request (apiKey text : string) : Request.t :=
  {| Request.url := "https://api.openai.com/v1/chat/completions";
     Request.method := "POST";
     Request.content_type := "application/json";
     Request.authorization := "Bearer " ++ apiKey;
     Request.model := "gpt-4-turbo-preview";
     Request.system_content := system_prompt;
     Request.user_content :=
       "Please analyze this transcribed text: " ++ dquote ++ text ++ dquote;
     Request.response_format := "json_object";
     Request.max_tokens := 500;
     Request.temperature := 0x1.6666666666666p-1 |}.

(** The template literal [${response.status}]. *)
Definition show_status (n : N) : string := NilZero.string_of_uint (N.to_uint n).

(** ** Recording devices *)

Record MediaStreamTrack : Type := {
  label : string;
  ended : bool;
}.

(** [track.stop()] *)
Definition stop_track (t : MediaStreamTrack) : MediaStreamTrack :=
  {| label := label t; ended := true |}.

(** A stream is its tracks ([getTracks()]); with [{ audio: true }] they
    are all audio tracks. *)
Definition MediaStream : Type := list MediaStreamTrack.

(** Encoded audio: a [Blob], an [ArrayBuffer]. *)
Definition Blob : Type := list Byte.byte.

(** The events a recorder queues for its handlers. *)
Inductive RecorderEvent : Type :=
| dataavailable
| stop.

Module MediaRecorder.
Inductive state : Type :=
| inactive
| recording.

(** The recorder keeps a reference to the stream it was made for: an
    address into the streams of the page. *)
Record t : Type := mk {
  stream : nat;
  current : state;
}.
End MediaRecorder.

(** ** The transcriber *)

Record TranscriberOptions : Type := {
  chunk_length_s : N;
  stride_length_s : N;
  language : string;
  return_timestamps : bool;
}.

Record Transcript : Type := { text : string }.

(** The speech-recognition pipeline: an opaque function that may fail. *)
Definition Transcriber : Type :=
  Float32Array.t -> TranscriberOptions -> outcome Transcript.

(** ** Component state *)

(** The hooks of [App] (lines 7-22), with the parts of the page the
    handlers change: the media streams (shared between the [stream]
    state and the recorder), the recorder events not yet dispatched, and
    the requests sent so far. *)
Record App : Type := {
  isRecording : bool;
  transcription : string;
  analysis : value;
  status : string;
  isModelLoading : bool;
  isAnalyzing : bool;
  apiKey : string;
  recorderRef : option MediaRecorder.t;
  transcriberRef : option Transcriber;
  stream : option nat;
  chunksRef : list Blob;
  streams : list MediaStream;
  tasks : list RecorderEvent;
  network : list Request.t;
}.

Definition setIsRecording (v : bool) (s : App) : App :=
  {| isRecording := v; transcription := transcription s;
     analysis := analysis s; status := status s;
     isModelLoading := isModelLoading s; isAnalyzing := isAnalyzing s;
     apiKey := apiKey s; recorderRef := recorderRef s;
     transcriberRef := transcriberRef s; stream := stream s;
     chunksRef := chunksRef s; streams := streams s; tasks := tasks s;
     network := network s |}.

Definition setTranscription (v : string) (s : App) : App :=
  {| isRecording := isRecording s; transcription := v;
     analysis := analysis s; status := status s;
     isModelLoading := isModelLoading s; isAnalyzing := isAnalyzing s;
     apiKey := apiKey s; recorderRef := recorderRef s;
     transcriberRef := transcriberRef s; stream := stream s;
     chunksRef := chunksRef s; streams := streams s; tasks := tasks s;
     network := network s |}.

Definition setAnalysis (v : value) (s : App) : App :=
  {| isRecording := isRecording s; transcription := transcription s;
     analysis := v; status := status s; isModelLoading := isModelLoading s;
     isAnalyzing := isAnalyzing s; apiKey := apiKey s;
     recorderRef := recorderRef s; transcriberRef := transcriberRef s;
     stream := stream s; chunksRef := chunksRef s; streams := streams s;
     tasks := tasks s; network := network s |}.

Definition setStatus (v : string) (s : App) : App :=
  {| isRecording := isRecording s; transcription := transcription s;
     analysis := analysis s; status := v; isModelLoading := isModelLoading s;
     isAnalyzing := isAnalyzing s; apiKey := apiKey s;
     recorderRef := recorderRef s; transcriberRef := transcriberRef s;
     stream := stream s; chunksRef := chunksRef s; streams := streams s;
     tasks := tasks s; network := network s |}.

Definition setIsModelLoading (v : bool) (s : App) : App :=
  {| isRecording := isRecording s; transcription := transcription s;
     analysis := analysis s; status := status s; isModelLoading := v;
     isAnalyzing := isAnalyzing s; apiKey := apiKey s;
     recorderRef := recorderRef s; transcriberRef := transcriberRef s;
     stream := stream s; chunksRef := chunksRef s; streams := streams s;
     tasks := tasks s; network := network s |}.

Definition setIsAnalyzing (v : bool) (s : App) : App :=
  {| isRecording := isRecording s; transcription := transcription s;
     analysis := analysis s; status := status s;
     isModelLoading := isModelLoading s; isAnalyzing := v;
     apiKey := apiKey s; recorderRef := recorderRef s;
     transcriberRef := transcriberRef s; stream := stream s;
     chunksRef := chunksRef s; streams := streams s; tasks := tasks s;
     network := network s |}.

Definition setApiKey (v : string) (s : App) : App :=
  {| isRecording := isRecording s; transcription := transcription s;
     analysis := analysis s; status := status s;
     isModelLoading := isModelLoading s; isAnalyzing := isAnalyzing s;
     apiKey := v; recorderRef := recorderRef s;
     transcriberRef := transcriberRef s; stream := stream s;
     chunksRef := chunksRef s; streams := streams s; tasks := tasks s;
     network := network s |}.

Definition set_recorderRef (v : option MediaRecorder.t) (s : App) : App :=
  {| isRecording := isRecording s; transcription := transcription s;
     analysis := analysis s; status := status s;
     isModelLoading := isModelLoading s; isAnalyzing := isAnalyzing s;
     apiKey := apiKey s; recorderRef := v;
     transcriberRef := transcriberRef s; stream := stream s;
     chunksRef := chunksRef s; streams := streams s; tasks := tasks s;
     network := network s |}.

Definition set_transcriberRef (v : option Transcriber) (s : App) : App :=
  {| isRecording := isRecording s; transcription := transcription s;
     analysis := analysis s; status := status s;
     isModelLoading := isModelLoading s; isAnalyzing := isAnalyzing s;
     apiKey := apiKey s; recorderRef := recorderRef s; transcriberRef := v;
     stream := stream s; chunksRef := chunksRef s; streams := streams s;
     tasks := tasks s; network := network s |}.

Definition setStream (v : option nat) (s : App) : App :=
  {| isRecording := isRecording s; transcription := transcription s;
     analysis := analysis s; status := status s;
     isModelLoading := isModelLoading s; isAnalyzing := isAnalyzing s;
     apiKey := apiKey s; recorderRef := recorderRef s;
     transcriberRef := transcriberRef s; stream := v;
     chunksRef := chunksRef s; streams := streams s; tasks := tasks s;
     network := network s |}.

Definition set_chunksRef (v : list Blob) (s : App) : App :=
  {| isRecording := isRecording s; transcription := transcription s;
     analysis := analysis s; status := status s;
     isModelLoading := isModelLoading s; isAnalyzing := isAnalyzing s;
     apiKey := apiKey s; recorderRef := recorderRef s;
     transcriberRef := transcriberRef s; stream := stream s; chunksRef := v;
     streams := streams s; tasks := tasks s; network := network s |}.

Definition set_streams (v : list MediaStream) (s : App) : App :=
  {| isRecording := isRecording s; transcription := transcription s;
     analysis := analysis s; status := status s;
     isModelLoading := isModelLoading s; isAnalyzing := isAnalyzing s;
     apiKey := apiKey s; recorderRef := recorderRef s;
     transcriberRef := transcriberRef s; stream := stream s;
     chunksRef := chunksRef s; streams := v; tasks := tasks s;
     network := network s |}.

Definition set_tasks (v : list RecorderEvent) (s : App) : App :=
  {| isRecording := isRecording s; transcription := transcription s;
     analysis := analysis s; status := status s;
     isModelLoading := isModelLoading s; isAnalyzing := isAnalyzing s;
     apiKey := apiKey s; recorderRef := recorderRef s;
     transcriberRef := transcriberRef s; stream := stream s;
     chunksRef := chunksRef s; streams := streams s; tasks := v;
     network := network s |}.

Definition set_network (v : list Request.t) (s : App) : App :=
  {| isRecording := isRecording s; transcription := transcription s;
     analysis := analysis s; status := status s;
     isModelLoading := isModelLoading s; isAnalyzing := isAnalyzing s;
     apiKey := apiKey s; recorderRef := recorderRef s;
     transcriberRef := transcriberRef s; stream := stream s;
     chunksRef := chunksRef s; streams := streams s; tasks := tasks s;
     network := v |}.


(** What the browser and the two services answer. *)
Record World : Type := {
  (** [navigator.mediaDevices.getUserMedia({ audio: true })] *)
  getUserMedia : outcome MediaStream;
  (** whether [MediaRecorder] accepts [audio/webm;codecs=opus] *)
  webm_opus_supported : bool;
  (** [new AudioContext({ sampleRate: 16000 }).decodeAudioData] *)
  decodeAudioData : Blob -> outcome AudioBuffer.t;
  (** [fetch] *)
  fetch : Request.t -> outcome Response.t;
  (** [JSON.parse], with its conversion of the argument to a string *)
  JSON_parse : value -> outcome value;
  (** [pipeline('automatic-speech-recognition', 'Xenova/whisper-base')] *)
  pipeline : outcome Transcriber;
}.

(** The state of the first render. *)
Definition initial : App :=
  {| isRecording := false;
     transcription := EmptyString;
     analysis :=
       VObj [ ("contextualAnalysis", VStr EmptyString);
              ("companies", VArr []);
              ("products", VArr []);
              ("relatedInfo", VStr EmptyString) ];
     status := EmptyString;
     isModelLoading := true;
     isAnalyzing := false;
     apiKey := EmptyString;
     recorderRef := None;
     transcriberRef := None;
     stream := None;
     chunksRef := [];
     streams := [];
     tasks := [];
     network := [] |}.

(** ** Handlers as state transformers that may throw *)

Definition M (A : Type) : Type := App -> outcome A * App.

Definition ret {A} (a : A) : M A := fun s => (Return a, s).

Definition throw {A} (e : exn) : M A := fun s => (Throw e, s).

Definition bind {A B} (m : M A) (k : A -> M B) : M B :=
  fun s =>
    match m s with
    | (Return a, s') => k a s'
    | (Throw e, s') => (Throw e, s')
    end.

Notation "x <- m ;; k" := (bind m (fun x => k))
  (at level 100, m at next level, k at level 200, right associativity).
Notation "'do' m ;; k" := (bind m (fun _ => k))
  (at level 100, m at next level, k at level 200, right associativity).

(** [await] of a promise whose settlement is known. *)
Definition await {A} (o : outcome A) : M A := fun s => (o, s).

Definition gets {A} (f : App -> A) : M A := fun s => (Return (f s), s).

Definition modify (f : App -> App) : M unit := fun s => (Return tt, f s).

(** [try { m } catch (e) { handler e }] *)
Definition try_catch {A} (m : M A) (handler : exn -> M A) : M A :=
  fun s =>
    match m s with
    | (Return a, s') => (Return a, s')
    | (Throw e, s') => handler e s'
    end.

(** [try { m } finally { cleanup }] *)
Definition try_finally {A} (m : M A) (cleanup : M unit) : M A :=
  fun s =>
    match m s with
    | (o, s') =>
        match cleanup s' with
        | (Return _, s'') => (o, s'')
        | (Throw e, s'') => (Throw e, s'')
        end
    end.

(** [!str] *)
Definition is_empty (str : string) : bool :=
  match str with
  | EmptyString => true
  | String _ _ => false
  end.

(** ** [analyzeWithOpenAI] (lines 47-110) *)

(** Lines 53-55, up to the [await] on [fetch]: the flag is raised and the
    request leaves. *)
Definition analyze_send (key text : string) : M unit :=
  do modify (setIsAnalyzing true) ;;
  s <- gets id ;;
  modify (set_network (network s ++ [chat_request key text])).

(** Lines 89-103, once [fetch] has settled. *)
Definition analyze_receive (w : World) (settled : outcome Response.t) : M value :=
  response <- await settled ;;
  if negb (Response.ok response) then
    throw (Error ("OpenAI API error: " ++ show_status (Response.status response)))
  else
    data <- await (Response.json response) ;;
    result <-
      try_catch
        (content <- await (choices0_message_content data) ;;
         await (JSON_parse w content))
        (fun error => throw error) ;;
    ret result.

(** The function of one render: [key] is the [apiKey] of that render,
    which the closure holds for as long as it lives. *)
Definition analyzeWithOpenAI_with (key : string) (w : World) (text : string)
    : M value :=
  if is_empty key then throw (Error "Please enter your OpenAI API key")
  else
    try_finally
      (try_catch
         (do analyze_send key text ;;
          analyze_receive w (fetch w (chat_request key text)))
         (fun error => throw error))
      (modify (setIsAnalyzing false)).

(** The function of the latest render, which sees the credential as the
    state has it. *)
Definition analyzeWithOpenAI (w : World) (text : string) : M value :=
  fun s => analyzeWithOpenAI_with (apiKey s) w text s.

(** What is left of an invocation once [fetch] has settled: lines 89-103
    inside the [catch] and the [finally] of lines 104-109. *)
Definition analyze_finish (w : World) (settled : outcome Response.t) : M value :=
  try_finally
    (try_catch (analyze_receive w settled) (fun error => throw error))
    (modify (setIsAnalyzing false)).

(** ** [useEffect]: loading the model (lines 24-45) *)

Definition initTranscriber (w : World) : M unit :=
  try_catch
    (do modify (setStatus "Loading Whisper model...") ;;
     (* [setIsRecording(false)] of line 44 runs while the model loads *)
     do modify (setIsRecording false) ;;
     transcriber <- await (pipeline w) ;;
     do modify (set_transcriberRef (Some transcriber)) ;;
     do modify (setIsModelLoading false) ;;
     modify (setStatus "Model ready"))
    (fun e => modify (setStatus ("Error loading model: " ++ message_of e))).

(** ** [startRecording] (lines 112-192) *)

(** [stream.getTracks().forEach(track => track.stop())] on the stream at
    an address. *)
Definition stop_tracks (address : nat) (s : App) : App :=
  set_streams (alter (fmap stop_track) address (streams s)) s.

Definition startRecording (w : World) : M unit :=
  mediaStream <- await (getUserMedia w) ;;
  s <- gets id ;;
  let address := List.length (streams s) in
  do modify (set_streams (streams s ++ [mediaStream])) ;;
  do (if webm_opus_supported w then
        modify (set_recorderRef
                  (Some (MediaRecorder.mk address MediaRecorder.inactive)))
      else throw (DOMException "NotSupportedError" "mimeType is not supported")) ;;
  (* [mediaStream.getAudioTracks()[0].label] *)
  do (match mediaStream with
      | [] => throw (TypeError "Cannot read properties of undefined (reading 'label')")
      | _ :: _ => ret tt
      end) ;;
  do modify (setStream (Some address)) ;;
  do modify (set_chunksRef []) ;;
  (* [recorderRef.current.start()] *)
  do modify (set_recorderRef
               (Some (MediaRecorder.mk address MediaRecorder.recording))) ;;
  do modify (setIsRecording true) ;;
  modify (setStatus "Recording...").

(** [recorderRef.current.ondataavailable] (lines 121-125) *)
Definition ondataavailable (data : Blob) : M unit :=
  if (0 <? List.length data)%nat then
    s <- gets id ;;
    modify (set_chunksRef (chunksRef s ++ [data]))
  else ret tt.

(** ** [stopRecording] (lines 194-203) *)

(** [recorder.requestData()]: an inactive recorder throws. *)
Definition requestData (r : MediaRecorder.t) : M unit :=
  match MediaRecorder.current r with
  | MediaRecorder.inactive =>
      throw (DOMException "InvalidStateError" "The MediaRecorder's state is 'inactive'.")
  | MediaRecorder.recording =>
      s <- gets id ;;
      modify (set_tasks (tasks s ++ [dataavailable]))
  end.

(** [recorder.stop()]: an inactive recorder is left alone; a recording
    one becomes inactive and queues its last data and the stop event. *)
Definition recorder_stop (r : MediaRecorder.t) : M unit :=
  match MediaRecorder.current r with
  | MediaRecorder.inactive => ret tt
  | MediaRecorder.recording =>
      do modify (set_recorderRef
                   (Some (MediaRecorder.mk (MediaRecorder.stream r)
                            MediaRecorder.inactive))) ;;
      s <- gets id ;;
      modify (set_tasks (tasks s ++ [dataavailable; stop]))
  end.

(** The body of [stopRecording] for the values of [isRecording] and
    [stream] its closure captured at the render that created it. *)
Definition stopRecording_with (recordingNow : bool) (held : option nat) : M unit :=
  current <- gets recorderRef ;;
  match current with
  | Some recorder =>
      if recordingNow then
        do requestData recorder ;;
        do recorder_stop recorder ;;
        do modify (setIsRecording false) ;;
        do modify (setStatus EmptyString) ;;
        match held with
        | Some address => modify (stop_tracks address)
        | None =>
            throw (TypeError "Cannot read properties of null (reading 'getTracks')")
        end
      else ret tt
  | None => ret tt
  end.

(** The handler of the current render. *)
Definition stopRecording : M unit :=
  fun s => stopRecording_with (isRecording s) (stream s) s.

(** ** The record button (lines 225-227) *)

(** [disabled={isModelLoading || isAnalyzing || !apiKey}] *)
Definition disabled (s : App) : bool :=
  isModelLoading s || isAnalyzing s || is_empty (apiKey s).

(** [onClick={isRecording ? stopRecording : startRecording}] *)
Definition onClick (w : World) : M unit :=
  fun s => if isRecording s then stopRecording s else startRecording w s.

(** A press of the button: a disabled button dispatches no click. *)
Definition click (w : World) : M unit :=
  fun s => if disabled s then (Return tt, s) else onClick w s.

(** ** The chain after a stop (lines 128-184) *)

(** [recorderRef.current.onstop], up to [readAsArrayBuffer]: the value is
    the blob handed to the reader. *)
Definition onstop : M Blob :=
  do modify (setStatus "Transcribing audio...") ;;
  current <- gets recorderRef ;;
  match current with
  | None => throw (TypeError "Cannot read properties of null (reading 'stream')")
  | Some recorder =>
      do modify (stop_tracks (MediaRecorder.stream recorder)) ;;
      chunks <- gets chunksRef ;;
      ret (concat chunks)
  end.

Definition transcriber_options : TranscriberOptions :=
  {| chunk_length_s := 30;
     stride_length_s := 5;
     language := "english";
     return_timestamps := false |}.

(** [fileReader.onloadend] from line 137 to line 177: everything before
    the call of [analyzeWithOpenAI]; the value is [result.text]. *)
Definition transcribe (w : World) (arrayBuffer : Blob) : M string :=
  decoded <- await (decodeAudioData w arrayBuffer) ;;
  audio <- await (downmix decoded) ;;
  current <- gets transcriberRef ;;
  match current with
  | None => throw (Error "Transcriber not initialized")
  | Some transcriber =>
      (* [let result;] stays [undefined] when the call throws *)
      result <-
        try_catch
          (r <- await (transcriber audio transcriber_options) ;; ret (Some r))
          (fun e =>
             do modify (setStatus ("Transcription error: " ++ message_of e)) ;;
             ret None) ;;
      do modify (set_chunksRef []) ;;
      match result with
      | None =>
          throw (TypeError "Cannot read properties of undefined (reading 'text')")
      | Some r =>
          do modify (setTranscription (text r)) ;;
          do modify (setStatus "Transcription analysis in progress...") ;;
          ret (text r)
      end
  end.

(** [fileReader.onloadend] (lines 136-182).  The handler is created
    inside [startRecording], so the [analyzeWithOpenAI] it calls is the
    one of the render in which Record was pressed: [key] is the
    credential of that render. *)
Definition onloadend_with (key : string) (w : World) (arrayBuffer : Blob) : M unit :=
  transcript <- transcribe w arrayBuffer ;;
  analysisResult <- analyzeWithOpenAI_with key w transcript ;;
  do modify (setAnalysis analysisResult) ;;
  modify (setStatus "Transcription analysis done!").

(** The handler of a recording whose Record press saw the credential the
    state has now: the field was not edited in between. *)
Definition onloadend (w : World) (arrayBuffer : Blob) : M unit :=
  fun s => onloadend_with (apiKey s) w arrayBuffer s.

(** [onloadend] up to the [await] on [fetch] (lines 137-179, then 48-55):
    the value is the transcript whose request is now outstanding. *)
Definition onloadend_begin (key : string) (w : World) (arrayBuffer : Blob)
    : M string :=
  transcript <- transcribe w arrayBuffer ;;
  if is_empty key then throw (Error "Please enter your OpenAI API key")
  else
    do analyze_send key transcript ;;
    ret transcript.

(** [onloadend] from the settlement of [fetch] to its end (lines 89-109,
    then 180-181). *)
Definition onloadend_finish (w : World) (settled : outcome Response.t) : M unit :=
  analysisResult <- analyze_finish w settled ;;
  do modify (setAnalysis analysisResult) ;;
  modify (setStatus "Transcription analysis done!").

(** The completion of [analyzeWithOpenAI] for a non-empty credential, as
    a function of what the service answers: used to state its
    properties. *)
Definition analysis_outcome (w : World) (key text : string) : outcome value :=
  outcome_bind (fetch w (chat_request key text)) (fun response =>
  if Response.ok response then
    outcome_bind (Response.json response) (fun data =>
    outcome_bind (choices0_message_content data) (JSON_parse w))
  else
    Throw (Error ("OpenAI API error: " ++ show_status (Response.status response)))).

(** The object the system message asks for (lines 71-75): one with the
    four keys. *)
Definition expected_keys : list string :=
  [ "contextualAnalysis"; "companies"; "products"; "relatedInfo" ].

Definition is_expected_object (v : value) : bool :=
  match v with
  | VObj props =>
      forallb (fun k => existsb (fun p => String.eqb k (fst p)) props) expected_keys
  | _ => false
  end.

(** ** Sample worlds and states *)

Module Sample.
Definition microphone : MediaStream :=
  [ {| label := "Built-in Microphone"; ended := false |} ].

Definition transcriber : Transcriber :=
  fun _ _ => Return {| text := "Our meeting covered Acme Corp's new widget line" |}.

Definition broken_transcriber : Transcriber :=
  fun _ _ => Throw (Error "session failed").

(** A completion whose message content is [content]. *)
Definition completion (content : value) : value :=
  VObj [ ("choices", VArr [ VObj [ ("message", VObj [ ("content", content) ]) ] ]) ].

(** A stand-in for [JSON.parse] that knows three texts. *)
Definition parse (v : value) : outcome value :=
  match v with
  | VStr "{}" => Return (VObj [])
  | VStr "[]" => Return (VArr [])
  | VStr "null" => Return VNull
  | VNull => Return VNull
  | _ => Throw (SyntaxError "Unexpected token")
  end.

Definition tone : AudioBuffer.t :=
  AudioBuffer.mk 2 [[1; 0.5]%float; [0; 0.5]%float].

(** Everything works: the service answers 200 with the object [{}]. *)
Definition world : World :=
  {| getUserMedia := Return microphone;
     webm_opus_supported := true;
     decodeAudioData := fun _ => Return tone;
     fetch := fun _ => Return (Response.mk 200 (Return (completion (VStr "{}"))));
     JSON_parse := parse;
     pipeline := Return transcriber |}.

(** The service answers with the given reply. *)
Definition answering (reply : outcome Response.t) : World :=
  {| getUserMedia := getUserMedia world;
     webm_opus_supported := true;
     decodeAudioData := decodeAudioData world;
     fetch := fun _ => reply;
     JSON_parse := parse;
     pipeline := pipeline world |}.

(** The user refuses the microphone. *)
Definition denied : World :=
  {| getUserMedia := Throw (DOMException "NotAllowedError" "Permission denied");
     webm_opus_supported := true;
     decodeAudioData := decodeAudioData world;
     fetch := fetch world;
     JSON_parse := parse;
     pipeline := pipeline world |}.

(** The recorded blob cannot be decoded. *)
Definition undecodable : World :=
  {| getUserMedia := getUserMedia world;
     webm_opus_supported := true;
     decodeAudioData :=
       fun _ => Throw (DOMException "EncodingError" "Unable to decode audio data");
     fetch := fetch world;
     JSON_parse := parse;
     pipeline := pipeline world |}.

(** The model is loaded and a credential is typed in. *)
Definition ready : App :=
  setApiKey "sk-test" (snd (initTranscriber world initial)).

(** The same with a transcriber that throws. *)
Definition ready_broken : App :=
  set_transcriberRef (Some broken_transcriber) ready.

(** A recording is running. *)
Definition recording : App := snd (startRecording world ready).
End Sample.

(** ** Sessions: the handlers in the order their events arrive *)

(** What can happen to the mounted component.  The browser produces
    only some orders of these; what holds after every list of events
    holds after the ones it produces. *)
Inductive event : Type :=
| KeyTyped (key : string)
| Pressed (w : World)
| DataAvailable (data : Blob)
| RecorderStopped
| ReaderLoaded (key : string) (w : World) (arrayBuffer : Blob).

(** The state a handler leaves, whether it returned or threw: the
    [onChange] of line 217, the button, and the three callbacks.  The
    reader's callback comes with the credential its closure holds. *)
Definition handle (ev : event) (s : App) : App :=
  match ev with
  | KeyTyped key => setApiKey key s
  | Pressed w => snd (click w s)
  | DataAvailable data => snd (ondataavailable data s)
  | RecorderStopped => snd (onstop s)
  | ReaderLoaded key w arrayBuffer => snd (onloadend_with key w arrayBuffer s)
  end.

Definition after (evs : list event) (s : App) : App :=
  foldl (fun s ev => handle ev s) s evs.

(** A session: the mount effect, then events. *)
Definition session (w : World) (evs : list event) : App :=
  after evs (snd (initTranscriber w initial)).

(** The same with the reader's callback in its two halves, so that other
    handlers can run while a request is outstanding. *)
Inductive step : Type :=
| Handled (ev : event)
| ReaderStarted (key : string) (w : World) (arrayBuffer : Blob)
| FetchSettled (w : World) (settled : outcome Response.t).

Definition advance (st : step) (s : App) : App :=
  match st with
  | Handled ev => handle ev s
  | ReaderStarted key w arrayBuffer => snd (onloadend_begin key w arrayBuffer s)
  | FetchSettled w settled => snd (onloadend_finish w settled s)
  end.



(** [event.data.size > 0] *)
Definition nonempty_blob (data : Blob) : bool := (0 <? List.length data)%nat.

(** The requests [analyzeWithOpenAI] builds. *)
Definition is_chat_request (r : Request.t) : Prop :=
  exists key text : string, key <> EmptyString /\ r = chat_request key text.

(** A state whose references to streams point into [streams]. *)
Definition references_in_range (s : App) : Prop :=
  (forall address, stream s = Some address -> address < List.length (streams s)) /\
  (forall recorder, recorderRef s = Some recorder ->
     MediaRecorder.stream recorder < List.length (streams s)).

(** The stream at [address] is in place and neither the [stream] state
    nor the recorder refers to it. *)
Definition unheld (address : nat) (ms : MediaStream) (s : App) : Prop :=
  streams s !! address = Some ms /\
  stream s <> Some address /\
  (forall recorder, recorderRef s = Some recorder ->
     MediaRecorder.stream recorder <> address).

(** ** The view (lines 205-307) *)

(** JavaScript truthiness. *)
Definition truthy (v : value) : bool :=
  match v with
  | VUndefined | VNull => false
  | VBool b => b
  | VNum x => negb (PrimFloat.eqb x 0 || PrimFloat.is_nan x)
  | VStr s => negb (is_empty s)
  | VArr _ | VObj _ => true
  end.

(** What [c && (<element>)] puts in the tree: the falsy value of [c], or
    the element. *)
Inductive slot (A : Type) : Type :=
| hidden (falsy : value)
| shown (element : A).
Arguments hidden {A} falsy.
Arguments shown {A} element.

Definition outcome_map {A B} (f : A -> B) (o : outcome A) : outcome B :=
  outcome_bind o (fun a => Return (f a)).

Definition guarded {A} (c : value) (element : outcome A) : outcome (slot A) :=
  if truthy c then outcome_map shown element else Return (hidden c).

(** [v.length > 0].  The own [length] of a parsed object is any JSON
    value; its comparison with 0 is left to [gt0]. *)
Definition length_positive (gt0 : value -> bool) (v : value) : outcome bool :=
  match v with
  | VUndefined =>
      Throw (TypeError "Cannot read properties of undefined (reading 'length')")
  | VNull =>
      Throw (TypeError "Cannot read properties of null (reading 'length')")
  | VArr elems => Return (0 <? List.length elems)%nat
  | VStr s => Return (0 <? String.length s)%nat
  | VObj props => Return (gt0 (own_property "length" props))
  | _ => Return false
  end.

(** [items.map(f)], stopping at the first call that throws. *)
Fixpoint map_items {A} (f : value -> outcome A) (items : list value)
    : outcome (list A) :=
  match items with
  | [] => Return []
  | item :: rest =>
      outcome_bind (f item) (fun a =>
      outcome_bind (map_items f rest) (fun others => Return (a :: others)))
  end.

(** [v.map(f)]: only arrays have a [map] that can be called. *)
Definition value_map {A} (what : string) (f : value -> outcome A) (v : value)
    : outcome (list A) :=
  match v with
  | VArr elems => map_items f elems
  | _ => Throw (TypeError (what ++ ".map is not a function"))
  end.

(** One [<li>]: [<strong>{item.name}</strong> - {item[second]}]. *)
Definition row (second : string) (item : value) : outcome (value * value) :=
  outcome_bind (get_prop item "name") (fun name =>
  outcome_bind (get_prop item second) (fun other => Return (name, other))).

(** [{v.length > 0 && (<ul>{v.map(...)}</ul>)}] *)
Definition rows (gt0 : value -> bool) (what second : string) (v : value)
    : outcome (slot (list (value * value))) :=
  outcome_bind (length_positive gt0 v) (fun positive =>
  if positive then outcome_map shown (value_map what (row second) v)
  else Return (hidden (VBool false))).

(** The block of lines 264-302. *)
Record AnalysisPanel : Type := {
  overview : value;
  companies : slot (list (value * value));
  products : slot (list (value * value));
  insights : slot value;
}.

Definition analysis_panel (gt0 : value -> bool) (analysis contextualAnalysis : value)
    : outcome AnalysisPanel :=
  outcome_bind (get_index0 contextualAnalysis) (fun first =>
  outcome_bind (get_prop analysis "companies") (fun cs =>
  outcome_bind (rows gt0 "analysis.companies" "industry" cs) (fun companyRows =>
  outcome_bind (get_prop analysis "products") (fun ps =>
  outcome_bind (rows gt0 "analysis.products" "descriptions" ps) (fun productRows =>
  outcome_bind (get_prop analysis "relatedInfo") (fun relatedInfo =>
  outcome_bind (guarded relatedInfo (get_index0 relatedInfo)) (fun info =>
  Return {| overview := first; companies := companyRows;
            products := productRows; insights := info |}))))))).

Inductive handler : Type :=
| handler_stopRecording
| handler_startRecording.

Inductive caption : Type :=
| caption_Loading
| caption_Stop
| caption_Record.

(** The element tree [App] returns, without its constant parts. *)
Record View : Type := {
  input_value : string;
  button_onClick : handler;
  button_disabled : bool;
  button_caption : caption;
  status_line : slot string;
  transcription_panel : slot string;
  analyzing_banner : slot unit;
  analysis_block : slot AnalysisPanel;
}.

Definition render (gt0 : value -> bool) (s : App) : outcome View :=
  outcome_bind (get_prop (analysis s) "contextualAnalysis") (fun contextualAnalysis =>
  outcome_bind
    (guarded contextualAnalysis (analysis_panel gt0 (analysis s) contextualAnalysis))
    (fun block =>
  Return
    {| input_value := apiKey s;
       button_onClick :=
         if isRecording s then handler_stopRecording else handler_startRecording;
       button_disabled := disabled s;
       button_caption :=
         if isModelLoading s then caption_Loading
         else if isRecording s then caption_Stop else caption_Record;
       status_line :=
         if is_empty (status s) then hidden (VStr (status s)) else shown (status s);
       transcription_panel :=
         if is_empty (transcription s) then hidden (VStr (transcription s))
         else shown (transcription s);
       analyzing_banner :=
         if isAnalyzing s then shown tt else hidden (VBool false);
       analysis_block := block |})).

(** The own properties [name] and [second] of the objects of a list. *)
Definition rows_of (second : string) (items : list (list (string * value)))
    : list (value * value) :=
  map (fun props => (own_property "name" props, own_property second props)) items.

(** [v[0]] for a value it can be read from. *)
Definition first_of (v : value) : value :=
  match get_index0 v with
  | Return first => first
  | Throw _ => VUndefined
  end.

(** What [rows] leaves for an array of objects. *)
Definition list_slot (items : list (value * value)) : slot (list (value * value)) :=
  match items with
  | [] => hidden (VBool false)
  | _ :: _ => shown items
  end.

(** ** More sample worlds *)

Module Scenario.
(** A browser whose [MediaRecorder] does not take webm/opus. *)
Definition no_webm : World :=
  {| getUserMedia := getUserMedia Sample.world;
     webm_opus_supported := false;
     decodeAudioData := decodeAudioData Sample.world;
     fetch := fetch Sample.world;
     JSON_parse := Sample.parse;
     pipeline := pipeline Sample.world |}.

(** The model cannot be fetched. *)
Definition offline : World :=
  {| getUserMedia := getUserMedia Sample.world;
     webm_opus_supported := true;
     decodeAudioData := decodeAudioData Sample.world;
     fetch := fetch Sample.world;
     JSON_parse := Sample.parse;
     pipeline := Throw (TypeError "Failed to fetch") |}.

(** An analysis with an overview, one company and no product. *)
Definition acme : list (string * value) :=
  [ ("contextualAnalysis", VArr [VStr "A product meeting."]);
    ("companies",
     VArr [VObj [("name", VStr "Acme Corp"); ("industry", VStr "Manufacturing")]]);
    ("products", VArr []);
    ("relatedInfo", VArr [VStr "Widgets are in demand."]) ].

(** A stand-in for [v > 0], right on numbers, booleans, [null],
    [undefined] and plain objects. *)
Definition gt0 (v : value) : bool :=
  match v with
  | VNum x => PrimFloat.ltb 0 x
  | VBool b => b
  | _ => false
  end.
End Scenario.

(** ** Proof support *)

(** Every handler, taken apart down to the state record. *)
Ltac take_apart :=
  unfold advance, handle, click, onClick, onloadend_begin, onloadend_finish,
    onloadend, onloadend_with, analyze_finish, analyzeWithOpenAI,
    analyzeWithOpenAI_with, analyze_send, analyze_receive, transcribe, onstop, stopRecording, stopRecording_with,
    requestData, recorder_stop, ondataavailable, startRecording, stop_tracks,
    try_catch, try_finally, bind, gets, modify, await, throw, ret, id;
  repeat (cbn [fst snd];
          match goal with
          | |- context [match ?x with _ => _ end] =>
              lazymatch x with
              | context [match _ with _ => _ end] => fail
              | _ => destruct x eqn:?
              end
          end).

(** * Properties *)

(** ** Downmix *)

Section DownmixLoop.
Variables left right : Float32Array.t.

Lemma downmix_loop_S n audio :
  downmix_loop (S n) left right audio =
  <[n := mixed_sample left right n]> (downmix_loop n left right audio).
Proof. unfold downmix_loop. rewrite seq_S, foldl_snoc. reflexivity. Qed.

Lemma downmix_loop_length n audio :
  List.length (downmix_loop n left right audio) = List.length audio.
Proof.
  induction n as [|n IH]; [reflexivity|].
  rewrite downmix_loop_S, length_insert. exact IH.
Qed.

(** After [n] iterations the first [n] cells hold the mixed samples
    and the others are untouched. *)
Lemma downmix_loop_lookup n audio i :
  downmix_loop n left right audio !! i =
  if decide (i < n) then (fun _ => mixed_sample left right i) <$> audio !! i
  else audio !! i.
Proof.
  induction n as [|n IH].
  - destruct (decide (i < 0)); [lia | reflexivity].
  - rewrite downmix_loop_S.
    destruct (decide (i = n)) as [->|Hne].
    + destruct (decide (n < S n)); [|lia].
      destruct (decide (n < List.length audio)) as [Hlt|Hge].
      * rewrite list_lookup_insert_eq
          by (rewrite downmix_loop_length; exact Hlt).
        destruct (lookup_lt_is_Some_2 audio n Hlt) as [x ->]. reflexivity.
      * rewrite list_insert_ge by (rewrite downmix_loop_length; lia).
        rewrite IH. destruct (decide (n < n)); [lia|].
        rewrite (proj2 (lookup_ge_None audio n)) by lia. reflexivity.
    + rewrite list_lookup_insert_ne by congruence. rewrite IH.
      destruct (decide (i < n)), (decide (i < S n)); try lia; reflexivity.
Qed.
End DownmixLoop.

(** C1 (as the code has it). For a stereo buffer the mixed array is as
    long as a channel and its cell [i] holds
    [sqrt(2) * (left[i] + right[i]) / 2] rounded to single precision:
    the array is a [Float32Array]. *)
Theorem downmix_stereo (decoded : AudioBuffer.t) (left right : Float32Array.t) :
  AudioBuffer.channels decoded = [left; right] ->
  AudioBuffer.wf decoded ->
  exists audio : Float32Array.t,
    downmix decoded = Return audio /\
    List.length audio = List.length left /\
    forall (i : nat) (l r : float),
      left !! i = Some l -> right !! i = Some r ->
      audio !! i = Some (fround (PrimFloat.sqrt 2 * (l + r) / 2)%float).
Proof.
  intros Hch Hwf. unfold AudioBuffer.wf in Hwf. rewrite Hch in Hwf.
  apply Forall_cons in Hwf as [Hl Hwf]. apply Forall_cons in Hwf as [Hr _].
  eexists. split; [|split].
  - unfold downmix, AudioBuffer.numberOfChannels, AudioBuffer.getChannelData.
    rewrite Hch. simpl. reflexivity.
  - rewrite downmix_loop_length. unfold Float32Array.new.
    apply length_replicate.
  - intros i l r Hli Hri. rewrite downmix_loop_lookup.
    assert (i < List.length left) as Hlt
      by (apply lookup_lt_is_Some; eauto).
    destruct (decide (i < AudioBuffer.length decoded)); [|lia].
    unfold Float32Array.new. rewrite lookup_replicate_2 by exact Hlt.
    unfold mixed_sample, SCALING_FACTOR. rewrite Hli, Hri. reflexivity.
Qed.

Lemma downmix_stereo_witness :
  exists audio : Float32Array.t,
    downmix Sample.tone = Return audio /\
    List.length audio = 2 /\
    audio !! 0 = Some 0x1.6a09e6p-1%float /\
    audio !! 1 = Some 0x1.6a09e6p-1%float.
Proof.
  destruct (downmix_stereo Sample.tone [1; 0.5]%float [0; 0.5]%float)
    as (audio & Hrun & Hlen & Hcell).
  - reflexivity.
  - repeat constructor.
  - exists audio. split; [exact Hrun|]. split; [exact Hlen|]. split.
    + rewrite (Hcell 0 1%float 0%float eq_refl eq_refl).
      vm_compute. reflexivity.
    + rewrite (Hcell 1 0.5%float 0.5%float eq_refl eq_refl).
      vm_compute. reflexivity.
Defined.

(** C1 as stated fails: for the samples 1 and 0 the expression is the
    double 0x1.6a09e667f3bcdp-1, and the cell holds another number, its
    single-precision neighbour. *)
Lemma downmix_stereo_not_exact :
  downmix Sample.tone = Return [0x1.6a09e6p-1; 0x1.6a09e6p-1]%float /\
  (PrimFloat.sqrt 2 * (1 + 0) / 2)%float = 0x1.6a09e667f3bcdp-1%float /\
  exists audio : Float32Array.t,
    downmix Sample.tone = Return audio /\
    audio !! 0 <> Some (PrimFloat.sqrt 2 * (1 + 0) / 2)%float.
Proof.
  split; [vm_compute; reflexivity|]. split; [vm_compute; reflexivity|].
  exists [0x1.6a09e6p-1; 0x1.6a09e6p-1]%float.
  split; [vm_compute; reflexivity|].
  intros H.
  apply (f_equal (fun cell : option float =>
                    match cell with
                    | Some x => PrimFloat.eqb x 0x1.6a09e6p-1%float
                    | None => false
                    end)) in H.
  vm_compute in H. discriminate H.
Qed.

(** The stored sample is the single-precision neighbour of the double
    the expression evaluates to. *)
Example downmix_tone :
  downmix Sample.tone = Return [0x1.6a09e6p-1; 0x1.6a09e6p-1]%float /\
  (SCALING_FACTOR * (1 + 0) / 2)%float = 0x1.6a09e667f3bcdp-1%float.
Proof. split; vm_compute; reflexivity. Qed.

(** A buffer that announces more frames than its channels hold stores
    nothing past the end of the array. *)
Example downmix_short_channels :
  downmix (AudioBuffer.mk 3 [[1]%float; [1]%float]) = Return [0x1.6a09e6p0]%float.
Proof. vm_compute. reflexivity. Qed.

(** C6. A buffer whose channel count is not 2 is passed on as its first
    channel, untouched. *)
Theorem downmix_mono (decoded : AudioBuffer.t) (first : Float32Array.t) :
  AudioBuffer.numberOfChannels decoded <> 2 ->
  AudioBuffer.channels decoded !! 0 = Some first ->
  downmix decoded = Return first.
Proof.
  intros Hn H0. unfold downmix, AudioBuffer.getChannelData.
  destruct (Nat.eqb_spec (AudioBuffer.numberOfChannels decoded) 2) as [E|_];
    [contradiction|].
  rewrite H0. reflexivity.
Qed.

Lemma downmix_mono_witness :
  downmix (AudioBuffer.mk 3 [[0.5; 0.25; 1]%float]) = Return [0.5; 0.25; 1]%float.
Proof.
  apply downmix_mono.
  - unfold AudioBuffer.numberOfChannels. simpl. lia.
  - reflexivity.
Defined.

(** ** The analysis request *)

Lemma is_empty_spec (str : string) : is_empty str = true <-> str = EmptyString.
Proof. destruct str; simpl; split; congruence. Qed.

Lemma is_empty_false (str : string) : str <> EmptyString -> is_empty str = false.
Proof. destruct str; [congruence | reflexivity]. Qed.

(** With a credential, the call raises the flag, sends its one request,
    completes as the replies dictate and lowers the flag. *)
Lemma analyzeWithOpenAI_with_nonempty (key : string) (w : World) (text : string)
    (s : App) :
  key <> EmptyString ->
  analyzeWithOpenAI_with key w text s =
  (analysis_outcome w key text,
   setIsAnalyzing false
     (set_network (network s ++ [chat_request key text])
        (setIsAnalyzing true s))).
Proof.
  intros Hkey. unfold analyzeWithOpenAI_with, analysis_outcome.
  rewrite (is_empty_false _ Hkey).
  unfold try_finally, try_catch, analyze_send, analyze_receive, bind, gets,
    modify, await, throw, ret, id.
  destruct (fetch w (chat_request key text)) as [response|e]; simpl;
    [|reflexivity].
  destruct (Response.ok response); simpl; [|reflexivity].
  destruct (Response.json response) as [data|e]; simpl; [|reflexivity].
  destruct (choices0_message_content data) as [content|e]; simpl; [|reflexivity].
  destruct (JSON_parse w content) as [result|e]; reflexivity.
Qed.

Lemma analyzeWithOpenAI_nonempty (w : World) (text : string) (s : App) :
  apiKey s <> EmptyString ->
  analyzeWithOpenAI w text s =
  (analysis_outcome w (apiKey s) text,
   setIsAnalyzing false
     (set_network (network s ++ [chat_request (apiKey s) text])
        (setIsAnalyzing true s))).
Proof. apply analyzeWithOpenAI_with_nonempty. Qed.

(** Without a credential the guard of line 48 throws ahead of the
    [try]: nothing is changed. *)
Lemma analyzeWithOpenAI_empty (w : World) (text : string) (s : App) :
  apiKey s = EmptyString ->
  analyzeWithOpenAI w text s =
    (Throw (Error "Please enter your OpenAI API key"), s).
Proof.
  intros Hkey. unfold analyzeWithOpenAI, analyzeWithOpenAI_with, throw.
  rewrite Hkey. reflexivity.
Qed.

(** An invocation is its send followed, once [fetch] has settled, by
    its finish. *)
Lemma analyzeWithOpenAI_with_split (key : string) (w : World) (text : string)
    (s : App) :
  key <> EmptyString ->
  analyzeWithOpenAI_with key w text s =
    analyze_finish w (fetch w (chat_request key text))
      (snd (analyze_send key text s)).
Proof.
  intros Hkey. unfold analyzeWithOpenAI_with. rewrite (is_empty_false _ Hkey).
  reflexivity.
Qed.


(** C3. With an empty credential the call throws the configuration
    error at once: the state is untouched, so no request has been sent
    and the service was not contacted. *)
Theorem analyzeWithOpenAI_empty_credential (w : World) (text : string) (s : App) :
  apiKey s = EmptyString ->
  analyzeWithOpenAI w text s =
    (Throw (Error "Please enter your OpenAI API key"), s) /\
  network (snd (analyzeWithOpenAI w text s)) = network s.
Proof.
  intros Hkey. rewrite (analyzeWithOpenAI_empty w text s Hkey).
  split; reflexivity.
Qed.

Lemma analyzeWithOpenAI_empty_credential_witness :
  analyzeWithOpenAI Sample.world "hello" initial =
    (Throw (Error "Please enter your OpenAI API key"), initial) /\
  network (snd (analyzeWithOpenAI Sample.world "hello" initial)) = network initial.
Proof.
  apply (analyzeWithOpenAI_empty_credential Sample.world "hello" initial).
  reflexivity.
Defined.

(** C4 (as the code has it). With a credential, a reply outside 200-299
    makes the call throw the service error that names the status.  A
    reply inside that range makes it throw whatever error reading the
    body raises: the rejection of [response.json()] when the body is not
    JSON, the TypeError of a body without a first choice, or the error
    of [JSON.parse] when the content is not JSON.  What [JSON.parse]
    accepts is returned as it is, with no check of its shape. *)
Theorem analyzeWithOpenAI_reply (w : World) (text : string) (s : App)
    (response : Response.t) :
  apiKey s <> EmptyString ->
  fetch w (chat_request (apiKey s) text) = Return response ->
  (Response.ok response = false ->
   fst (analyzeWithOpenAI w text s) =
     Throw (Error ("OpenAI API error: " ++ show_status (Response.status response)))) /\
  (Response.ok response = true ->
   (forall e : exn,
      Response.json response = Throw e ->
      fst (analyzeWithOpenAI w text s) = Throw e) /\
   (forall (data : value) (e : exn),
      Response.json response = Return data ->
      choices0_message_content data = Throw e ->
      fst (analyzeWithOpenAI w text s) = Throw e) /\
   (forall (data content : value) (e : exn),
      Response.json response = Return data ->
      choices0_message_content data = Return content ->
      JSON_parse w content = Throw e ->
      fst (analyzeWithOpenAI w text s) = Throw e) /\
   (forall (data content result : value),
      Response.json response = Return data ->
      choices0_message_content data = Return content ->
      JSON_parse w content = Return result ->
      fst (analyzeWithOpenAI w text s) = Return result)).
Proof.
  intros Hkey Hfetch.
  rewrite (analyzeWithOpenAI_nonempty w text s Hkey). simpl.
  unfold analysis_outcome. rewrite Hfetch. simpl. split.
  - intros ->. reflexivity.
  - intros ->. repeat split.
    + intros e ->. reflexivity.
    + intros data e ->. simpl. intros ->. reflexivity.
    + intros data content e ->. simpl. intros ->. simpl. intros ->. reflexivity.
    + intros data content result ->. simpl. intros ->. simpl. intros ->.
      reflexivity.
Qed.

Lemma analyzeWithOpenAI_reply_witness :
  fst (analyzeWithOpenAI
         (Sample.answering (Return (Response.mk 503 (Throw (SyntaxError "Unexpected end of JSON input")))))
         "hello" Sample.ready) =
    Throw (Error "OpenAI API error: 503") /\
  fst (analyzeWithOpenAI
         (Sample.answering (Return (Response.mk 200 (Throw (SyntaxError "Unexpected token < in JSON")))))
         "hello" Sample.ready) =
    Throw (SyntaxError "Unexpected token < in JSON") /\
  fst (analyzeWithOpenAI
         (Sample.answering (Return (Response.mk 200 (Return (Sample.completion (VStr "{"))))))
         "hello" Sample.ready) =
    Throw (SyntaxError "Unexpected token").
Proof.
  split; [|split].
  - apply (proj1 (analyzeWithOpenAI_reply
             (Sample.answering (Return (Response.mk 503 (Throw (SyntaxError "Unexpected end of JSON input")))))
             "hello" Sample.ready
             (Response.mk 503 (Throw (SyntaxError "Unexpected end of JSON input")))
             ltac:(discriminate) eq_refl)).
    reflexivity.
  - apply (proj1 (proj2 (analyzeWithOpenAI_reply
             (Sample.answering (Return (Response.mk 200 (Throw (SyntaxError "Unexpected token < in JSON")))))
             "hello" Sample.ready
             (Response.mk 200 (Throw (SyntaxError "Unexpected token < in JSON")))
             ltac:(discriminate) eq_refl)
           eq_refl)).
    reflexivity.
  - apply (proj1 (proj2 (proj2 (proj2 (analyzeWithOpenAI_reply
             (Sample.answering (Return (Response.mk 200 (Return (Sample.completion (VStr "{"))))))
             "hello" Sample.ready
             (Response.mk 200 (Return (Sample.completion (VStr "{"))))
             ltac:(discriminate) eq_refl)
           eq_refl)))
           (Sample.completion (VStr "{")) (VStr "{")
           (SyntaxError "Unexpected token") eq_refl eq_refl eq_refl).
Defined.

(** C4 as stated fails: a 200 reply whose content is the JSON text of an
    empty array, or of an object with none of the four keys, is not the
    object asked for, and the call returns it without an error. *)
Lemma analyzeWithOpenAI_unexpected_shape :
  is_expected_object (VArr []) = false /\
  fst (analyzeWithOpenAI
         (Sample.answering (Return (Response.mk 200 (Return (Sample.completion (VStr "[]"))))))
         "hello" Sample.ready) =
    Return (VArr []) /\
  is_expected_object (VObj []) = false /\
  fst (analyzeWithOpenAI
         (Sample.answering (Return (Response.mk 200 (Return (Sample.completion (VStr "{}"))))))
         "hello" Sample.ready) =
    Return (VObj []).
Proof. repeat split. Qed.

(** C9. With a credential, the call sends exactly one request, the one
    of lines 55-87, whatever the service answers and however the call
    completes. *)
Theorem analyzeWithOpenAI_one_request (w : World) (text : string) (s : App) :
  apiKey s <> EmptyString ->
  network (snd (analyzeWithOpenAI w text s)) =
    (network s ++ [chat_request (apiKey s) text])%list.
Proof.
  intros Hkey. rewrite (analyzeWithOpenAI_nonempty w text s Hkey). reflexivity.
Qed.

Lemma analyzeWithOpenAI_one_request_witness :
  network (snd (analyzeWithOpenAI Sample.world "hello" Sample.ready)) =
    (network Sample.ready ++ [chat_request (apiKey Sample.ready) "hello"])%list.
Proof.
  apply (analyzeWithOpenAI_one_request Sample.world "hello" Sample.ready).
  discriminate.
Defined.

(** ** Stopping *)

(** C7. A second [stopRecording] right after a first changes nothing,
    and returns normally whenever the first did; [stopRecording] while
    not recording changes nothing either.  Even the handler of the
    earlier render, which still sees [isRecording] as it was, changes
    nothing when called again. *)
Theorem stopRecording_idempotent (s : App) :
  snd (stopRecording (snd (stopRecording s))) = snd (stopRecording s) /\
  (fst (stopRecording s) = Return tt ->
   stopRecording (snd (stopRecording s)) = (Return tt, snd (stopRecording s))) /\
  snd (stopRecording_with (isRecording s) (stream s) (snd (stopRecording s))) =
    snd (stopRecording s) /\
  (isRecording s = false -> stopRecording s = (Return tt, s)).
Proof.
  destruct s as [rec tr an st ml az key [[address [|]]|] tref [held|] ch ss tk nw];
    destruct rec;
    unfold stopRecording, stopRecording_with, requestData, recorder_stop, bind,
      gets, modify, throw, ret, id;
    simpl; repeat split; intros; try reflexivity; try discriminate.
Qed.

Lemma stopRecording_idempotent_witness :
  stopRecording (snd (stopRecording Sample.recording)) =
    (Return tt, snd (stopRecording Sample.recording)) /\
  stopRecording Sample.ready = (Return tt, Sample.ready).
Proof.
  split.
  - apply (proj1 (proj2 (stopRecording_idempotent Sample.recording))).
    reflexivity.
  - apply (proj2 (proj2 (proj2 (stopRecording_idempotent Sample.ready)))).
    reflexivity.
Defined.

(** What the first stop does to a running recording. *)
Example stopRecording_stops :
  let s := snd (stopRecording Sample.recording) in
  fst (stopRecording Sample.recording) = Return tt /\
  isRecording s = false /\
  status s = EmptyString /\
  recorderRef s = Some (MediaRecorder.mk 0 MediaRecorder.inactive) /\
  tasks s = [dataavailable; dataavailable; stop] /\
  streams s = [[ {| label := "Built-in Microphone"; ended := true |} ]].
Proof. vm_compute. repeat split. Qed.

(** ** The record button *)








(** Once enabled, the same press does start a recording. *)
Example click_starts_when_enabled :
  isRecording (snd (click Sample.world Sample.ready)) = true /\
  status (snd (click Sample.world Sample.ready)) = "Recording...".
Proof. split; reflexivity. Qed.

(** ** The chain after a stop *)

(** A whole session: record, stop, transcribe, analyse. *)
Example session_completes :
  let s1 := snd (click Sample.world Sample.ready) in
  let s2 := snd (ondataavailable [x52; x49]%byte (snd (click Sample.world s1))) in
  let (blob, s3) := onstop s2 in
  let (done, s4) := onloadend Sample.world [x52; x49]%byte s3 in
  blob = Return [x52; x49]%byte /\
  done = Return tt /\
  status s4 = "Transcription analysis done!" /\
  transcription s4 = "Our meeting covered Acme Corp's new widget line" /\
  analysis s4 = VObj [] /\
  isAnalyzing s4 = false /\
  List.length (network s4) = 1.
Proof. vm_compute. repeat split. Qed.

(** Whatever credential the closure holds, a transcriber that throws
    ends the reader's callback on the read of [result.text]. *)
Lemma onloadend_with_transcription_error (key : string) (w : World)
    (arrayBuffer : Blob) (s : App) (decoded : AudioBuffer.t)
    (audio : Float32Array.t) (transcriber : Transcriber) (e : exn) :
  decodeAudioData w arrayBuffer = Return decoded ->
  downmix decoded = Return audio ->
  transcriberRef s = Some transcriber ->
  transcriber audio transcriber_options = Throw e ->
  onloadend_with key w arrayBuffer s =
    (Throw (TypeError "Cannot read properties of undefined (reading 'text')"),
     set_chunksRef [] (setStatus ("Transcription error: " ++ message_of e) s)).
Proof.
  intros Hdecode Hmix Href Hcall.
  unfold onloadend_with, transcribe, bind, await, gets.
  rewrite Hdecode, Hmix, Href.
  unfold try_catch, bind, await. rewrite Hcall. reflexivity.
Qed.

(** C5 (as the code has it). When the transcriber throws, the status
    becomes the transcription error message, the chunks are reset, and
    the read of [result.text] throws: the handler ends there, so the
    transcript is not published and the analysis is not invoked. *)
Theorem onloadend_transcription_error (w : World) (arrayBuffer : Blob) (s : App)
    (decoded : AudioBuffer.t) (audio : Float32Array.t)
    (transcriber : Transcriber) (e : exn) :
  decodeAudioData w arrayBuffer = Return decoded ->
  downmix decoded = Return audio ->
  transcriberRef s = Some transcriber ->
  transcriber audio transcriber_options = Throw e ->
  onloadend w arrayBuffer s =
    (Throw (TypeError "Cannot read properties of undefined (reading 'text')"),
     set_chunksRef [] (setStatus ("Transcription error: " ++ message_of e) s)).
Proof.
  intros Hdecode Hmix Href Hcall. unfold onloadend.
  exact (onloadend_with_transcription_error _ _ _ _ _ _ _ _
           Hdecode Hmix Href Hcall).
Qed.

Lemma onloadend_transcription_error_witness :
  onloadend Sample.world [] Sample.ready_broken =
    (Throw (TypeError "Cannot read properties of undefined (reading 'text')"),
     set_chunksRef [] (setStatus "Transcription error: session failed" Sample.ready_broken)).
Proof.
  apply (onloadend_transcription_error Sample.world [] Sample.ready_broken
           Sample.tone
           [fround (SCALING_FACTOR * (1 + 0) / 2)%float;
            fround (SCALING_FACTOR * (0.5 + 0.5) / 2)%float]
           Sample.broken_transcriber (Error "session failed"));
    reflexivity.
Defined.

(** C5 as stated fails: with a credential in place and a transcriber
    that throws, control never reaches the call of the analysis; no
    request leaves and the flag is never raised. *)
Lemma onloadend_transcription_error_no_analysis :
  apiKey Sample.ready_broken = "sk-test" /\
  fst (transcribe Sample.world [] Sample.ready_broken) =
    Throw (TypeError "Cannot read properties of undefined (reading 'text')") /\
  fst (onloadend Sample.world [] Sample.ready_broken) =
    Throw (TypeError "Cannot read properties of undefined (reading 'text')") /\
  network (snd (onloadend Sample.world [] Sample.ready_broken)) = [] /\
  status (snd (onloadend Sample.world [] Sample.ready_broken)) =
    "Transcription error: session failed".
Proof. vm_compute. repeat split. Qed.

(** C2 fails on the code. Three stage errors that no handler catches:
    the refused microphone, the undecodable blob and the failed analysis
    request all leave the handler as a rejection, and the status line
    still shows what it showed before the error. *)
Theorem stage_errors_escape :
  startRecording Sample.denied Sample.ready =
    (Throw (DOMException "NotAllowedError" "Permission denied"), Sample.ready) /\
  status Sample.ready = "Model ready" /\
  onloadend Sample.undecodable [] Sample.ready =
    (Throw (DOMException "EncodingError" "Unable to decode audio data"), Sample.ready) /\
  fst (onloadend (Sample.answering (Return (Response.mk 500 (Return VNull)))) []
         Sample.ready) =
    Throw (Error "OpenAI API error: 500") /\
  status (snd (onloadend (Sample.answering (Return (Response.mk 500 (Return VNull)))) []
                 Sample.ready)) =
    "Transcription analysis in progress...".
Proof. vm_compute. repeat split. Qed.

(** A sibling path that does publish its error: the model load (the
    transcription call, above, is the other). *)
Example model_load_error_is_published :
  forall (w : World) (e : exn),
    pipeline w = Throw e ->
    status (snd (initTranscriber w initial)) = "Error loading model: " ++ message_of e.
Proof.
  intros w e H. unfold initTranscriber, try_catch, bind, modify, await.
  rewrite H. reflexivity.
Qed.

(** * Further properties of the handlers *)

(** ** Recorded data *)

Lemma concat_nonempty (ds : list Blob) : concat (List.filter nonempty_blob ds) = concat ds.
Proof.
  induction ds as [|d ds IH]; [reflexivity|].
  cbn [List.filter]. destruct d as [|b d]; cbn; [exact IH|].
  rewrite IH. reflexivity.
Qed.

Lemma after_snoc (evs : list event) (ev : event) (s : App) :
  after (evs ++ [ev]) s = handle ev (after evs s).
Proof. unfold after. rewrite foldl_snoc. reflexivity. Qed.

Lemma after_cons (ev : event) (evs : list event) (s : App) :
  after (ev :: evs) s = after evs (handle ev s).
Proof. reflexivity. Qed.

(** Deliveries only touch the chunk list: they append the blobs that
    have bytes. *)
Lemma deliveries (ds : list Blob) (s : App) :
  after (map DataAvailable ds) s =
    set_chunksRef (chunksRef s ++ List.filter nonempty_blob ds) s.
Proof.
  revert s. induction ds as [|d ds IH]; intros s.
  - cbn. rewrite app_nil_r. destruct s; reflexivity.
  - cbn [map]. rewrite after_cons, IH. cbn [List.filter handle].
    unfold ondataavailable, nonempty_blob.
    destruct (0 <? List.length d)%nat; cbn.
    + rewrite <- app_assoc. reflexivity.
    + reflexivity.
Qed.

(** X1. The blob handed to the file reader when the recorder stops is
    the concatenation, in order of arrival, of the chunks held and of
    every blob delivered since; blobs of size 0 are not kept and add
    nothing. *)
Theorem onstop_reads_all_data (s : App) (recorder : MediaRecorder.t) (ds : list Blob) :
  recorderRef s = Some recorder ->
  chunksRef (after (map DataAvailable ds) s) =
    (chunksRef s ++ List.filter nonempty_blob ds)%list /\
  fst (onstop (after (map DataAvailable ds) s)) =
    Return (concat (chunksRef s) ++ concat ds)%list.
Proof.
  intros Href. rewrite deliveries. split; [reflexivity|].
  unfold onstop, bind, gets, modify, ret. cbn. rewrite Href. cbn.
  rewrite concat_app, concat_nonempty. reflexivity.
Qed.

Lemma onstop_reads_all_data_witness :
  chunksRef (after (map DataAvailable [[x01]; []; [x02; x03]]%byte) Sample.recording) =
    ([] ++ List.filter nonempty_blob [[x01]; []; [x02; x03]]%byte)%list /\
  fst (onstop (after (map DataAvailable [[x01]; []; [x02; x03]]%byte) Sample.recording)) =
    Return (concat [] ++ concat [[x01]; []; [x02; x03]]%byte)%list.
Proof.
  apply (onstop_reads_all_data Sample.recording
           (MediaRecorder.mk 0 MediaRecorder.recording)).
  reflexivity.
Defined.

(** ** A recording from press to press *)

Lemma alter_last {A} (f : A -> A) (l : list A) (x : A) :
  alter f (List.length l) (l ++ [x])%list = (l ++ [f x])%list.
Proof.
  induction l as [|y l IH]; [reflexivity|].
  cbn. f_equal. exact IH.
Qed.

(** X2. From an enabled button that shows Record, with a microphone and
    a recorder to be had, one press starts a recording on a fresh stream
    with an empty chunk list, and the next press stops it: the recorder
    is inactive with its last data and its stop event queued, every
    track of the stream is ended, and the release that [onstop] repeats
    changes no stream. *)
Theorem press_starts_then_stops (w w' : World) (s : App)
    (track : MediaStreamTrack) (others : MediaStream) :
  disabled s = false ->
  isRecording s = false ->
  getUserMedia w = Return (track :: others) ->
  webm_opus_supported w = true ->
  let address := List.length (streams s) in
  let s1 := snd (click w s) in
  let s2 := snd (click w' s1) in
  (fst (click w s) = Return tt /\
   isRecording s1 = true /\
   status s1 = "Recording..." /\
   chunksRef s1 = [] /\
   stream s1 = Some address /\
   recorderRef s1 = Some (MediaRecorder.mk address MediaRecorder.recording) /\
   streams s1 = (streams s ++ [track :: others])%list) /\
  (fst (click w' s1) = Return tt /\
   isRecording s2 = false /\
   status s2 = EmptyString /\
   recorderRef s2 = Some (MediaRecorder.mk address MediaRecorder.inactive) /\
   tasks s2 = (tasks s ++ [dataavailable; dataavailable; stop])%list /\
   streams s2 = (streams s ++ [stop_track <$> (track :: others)])%list /\
   streams (snd (onstop s2)) = streams s2).
Proof.
  intros Hen Hrec Hmedia Hmime address s1 s2.
  assert (Hs1 : click w s =
    (Return tt,
     setStatus "Recording..."
       (setIsRecording true
          (set_recorderRef (Some (MediaRecorder.mk address MediaRecorder.recording))
             (set_chunksRef []
                (setStream (Some address)
                   (set_recorderRef
                      (Some (MediaRecorder.mk address MediaRecorder.inactive))
                      (set_streams (streams s ++ [track :: others]) s)))))))).
  { unfold click, onClick. rewrite Hen, Hrec.
    unfold startRecording, bind, gets, modify, await, throw, ret, id.
    rewrite Hmedia, Hmime. reflexivity. }
  subst s1 s2. rewrite Hs1. cbn [fst snd].
  split; [repeat split|].
  unfold click, disabled. cbn [isModelLoading isAnalyzing apiKey setStatus
    setIsRecording set_recorderRef set_chunksRef setStream set_streams].
  unfold disabled in Hen. rewrite Hen.
  unfold onClick, stopRecording, stopRecording_with, requestData, recorder_stop,
    onstop, stop_tracks, bind, gets, modify, throw, ret, id.
  cbn.
  subst address. rewrite !alter_last.
  repeat split.
  - rewrite <- app_assoc. reflexivity.
  - f_equal. f_equal. rewrite <- list_fmap_compose.
    apply list_fmap_ext. intros _ [l e] _. reflexivity.
Qed.

Lemma press_starts_then_stops_witness :
  isRecording (snd (click Sample.world Sample.ready)) = true /\
  isRecording (snd (click Sample.denied (snd (click Sample.world Sample.ready)))) = false.
Proof.
  pose proof (press_starts_then_stops Sample.world Sample.denied Sample.ready
                {| label := "Built-in Microphone"; ended := false |} []
                eq_refl eq_refl eq_refl eq_refl) as [Hstart Hstop].
  split.
  - exact (proj1 (proj2 Hstart)).
  - exact (proj1 (proj2 Hstop)).
Defined.

(** ** The chain after a stop, case by case *)

(** What [transcribe] can do: fail before the transcriber is called and
    change nothing; catch the transcriber's error and then throw on
    [result.text]; or publish the transcript. *)
Lemma transcribe_cases (w : World) (arrayBuffer : Blob) (s : App) :
  (exists e, transcribe w arrayBuffer s = (Throw e, s)) \/
  (exists e,
     transcribe w arrayBuffer s =
       (Throw (TypeError "Cannot read properties of undefined (reading 'text')"),
        set_chunksRef [] (setStatus ("Transcription error: " ++ message_of e) s))) \/
  (exists r,
     transcribe w arrayBuffer s =
       (Return (text r),
        setStatus "Transcription analysis in progress..."
          (setTranscription (text r) (set_chunksRef [] s)))).
Proof.
  unfold transcribe, try_catch, bind, gets, modify, await, throw, ret.
  destruct (decodeAudioData w arrayBuffer) as [decoded|e]; [|left; eauto].
  destruct (downmix decoded) as [audio|e]; [|left; eauto].
  destruct (transcriberRef s) as [transcriber|]; [|left; eauto].
  destruct (transcriber audio transcriber_options) as [r|e]; cbn.
  - right. right. exists r. reflexivity.
  - right. left. exists e. reflexivity.
Qed.

Lemma transcribe_success (w : World) (arrayBuffer : Blob) (s : App)
    (decoded : AudioBuffer.t) (audio : Float32Array.t)
    (transcriber : Transcriber) (r : Transcript) :
  decodeAudioData w arrayBuffer = Return decoded ->
  downmix decoded = Return audio ->
  transcriberRef s = Some transcriber ->
  transcriber audio transcriber_options = Return r ->
  transcribe w arrayBuffer s =
    (Return (text r),
     setStatus "Transcription analysis in progress..."
       (setTranscription (text r) (set_chunksRef [] s))).
Proof.
  intros Hdecode Hmix Href Hcall.
  unfold transcribe, try_catch, bind, gets, modify, await, throw, ret.
  rewrite Hdecode, Hmix, Href, Hcall. reflexivity.
Qed.

(** The state [onloadend] leaves when every stage succeeds. *)
Lemma onloadend_returns (key : string) (w : World) (arrayBuffer : Blob) (s : App)
    (decoded : AudioBuffer.t) (audio : Float32Array.t)
    (transcriber : Transcriber) (r : Transcript)
    (response : Response.t) (data content result : value) :
  decodeAudioData w arrayBuffer = Return decoded ->
  downmix decoded = Return audio ->
  transcriberRef s = Some transcriber ->
  transcriber audio transcriber_options = Return r ->
  key <> EmptyString ->
  fetch w (chat_request key (text r)) = Return response ->
  Response.ok response = true ->
  Response.json response = Return data ->
  choices0_message_content data = Return content ->
  JSON_parse w content = Return result ->
  onloadend_with key w arrayBuffer s =
    (Return tt,
     setStatus "Transcription analysis done!"
       (setAnalysis result
          (setIsAnalyzing false
             (set_network (network s ++ [chat_request key (text r)])
                (setIsAnalyzing true
                   (setStatus "Transcription analysis in progress..."
                      (setTranscription (text r) (set_chunksRef [] s)))))))).
Proof.
  intros Hdecode Hmix Href Hcall Hkey Hfetch Hok Hjson Hcontent Hparse.
  unfold onloadend_with, bind.
  rewrite (transcribe_success _ _ _ _ _ _ _ Hdecode Hmix Href Hcall).
  rewrite analyzeWithOpenAI_with_nonempty by exact Hkey.
  unfold analysis_outcome.
  rewrite Hfetch. cbn. rewrite Hok, Hjson. cbn. rewrite Hcontent. cbn.
  rewrite Hparse. reflexivity.
Qed.

(** X3. When every stage succeeds, [onloadend] returns with the
    transcript and the parsed analysis published, the status at done,
    the chunk list empty and the flag down; the one request it sent
    carries exactly the transcript it published and the credential its
    closure holds, the one of the render in which Record was pressed,
    whatever the credential field holds by then. *)
Theorem onloadend_success (key : string) (w : World) (arrayBuffer : Blob) (s : App)
    (decoded : AudioBuffer.t) (audio : Float32Array.t)
    (transcriber : Transcriber) (r : Transcript)
    (response : Response.t) (data content result : value) :
  decodeAudioData w arrayBuffer = Return decoded ->
  downmix decoded = Return audio ->
  transcriberRef s = Some transcriber ->
  transcriber audio transcriber_options = Return r ->
  key <> EmptyString ->
  fetch w (chat_request key (text r)) = Return response ->
  Response.ok response = true ->
  Response.json response = Return data ->
  choices0_message_content data = Return content ->
  JSON_parse w content = Return result ->
  let s' := snd (onloadend_with key w arrayBuffer s) in
  fst (onloadend_with key w arrayBuffer s) = Return tt /\
  status s' = "Transcription analysis done!" /\
  transcription s' = text r /\
  analysis s' = result /\
  chunksRef s' = [] /\
  isAnalyzing s' = false /\
  apiKey s' = apiKey s /\
  network s' = (network s ++ [chat_request key (text r)])%list.
Proof.
  intros Hdecode Hmix Href Hcall Hkey Hfetch Hok Hjson Hcontent Hparse.
  rewrite (onloadend_returns _ _ _ _ _ _ _ _ _ _ _ _ Hdecode Hmix Href Hcall Hkey
             Hfetch Hok Hjson Hcontent Hparse).
  repeat split.
Qed.

(** The credential is edited while the recording runs: the request
    carries the one of the Record press. *)
Lemma onloadend_success_witness :
  let pressed := Sample.ready in
  let s :=
    after [Pressed Sample.world; KeyTyped "sk-other"; Pressed Sample.world;
           RecorderStopped] pressed in
  apiKey pressed = "sk-test" /\
  apiKey s = "sk-other" /\
  fst (onloadend_with (apiKey pressed) Sample.world [] s) = Return tt /\
  Request.authorization <$>
    network (snd (onloadend_with (apiKey pressed) Sample.world [] s)) =
    ["Bearer sk-test"].
Proof.
  pose proof (onloadend_success "sk-test" Sample.world []
                (after [Pressed Sample.world; KeyTyped "sk-other";
                        Pressed Sample.world; RecorderStopped] Sample.ready)
                Sample.tone
                [fround (SCALING_FACTOR * (1 + 0) / 2)%float;
                 fround (SCALING_FACTOR * (0.5 + 0.5) / 2)%float]
                Sample.transcriber
                {| text := "Our meeting covered Acme Corp's new widget line" |}
                (Response.mk 200 (Return (Sample.completion (VStr "{}"))))
                (Sample.completion (VStr "{}")) (VStr "{}") (VObj [])
                eq_refl eq_refl eq_refl eq_refl ltac:(discriminate)
                eq_refl eq_refl eq_refl eq_refl eq_refl) as H.
  cbv zeta in H |- *.
  split; [reflexivity|]. split; [reflexivity|]. split; [exact (proj1 H)|].
  change (apiKey Sample.ready) with "sk-test".
  rewrite (proj2 (proj2 (proj2 (proj2 (proj2 (proj2 (proj2 H))))))).
  reflexivity.
Defined.

(** X4. When the transcript is there and the analysis throws, for
    whatever reason, [onloadend] lets the error out with the transcript
    published, the earlier analysis still in place, the flag down, and
    the status left at in progress. *)
Theorem onloadend_analysis_error (w : World) (arrayBuffer : Blob) (s : App)
    (decoded : AudioBuffer.t) (audio : Float32Array.t)
    (transcriber : Transcriber) (r : Transcript) (e : exn) :
  decodeAudioData w arrayBuffer = Return decoded ->
  downmix decoded = Return audio ->
  transcriberRef s = Some transcriber ->
  transcriber audio transcriber_options = Return r ->
  apiKey s <> EmptyString ->
  analysis_outcome w (apiKey s) (text r) = Throw e ->
  let s' := snd (onloadend w arrayBuffer s) in
  fst (onloadend w arrayBuffer s) = Throw e /\
  status s' = "Transcription analysis in progress..." /\
  transcription s' = text r /\
  analysis s' = analysis s /\
  isAnalyzing s' = false /\
  disabled s' = isModelLoading s.
Proof.
  intros Hdecode Hmix Href Hcall Hkey Hout.
  unfold onloadend, onloadend_with, bind.
  rewrite (transcribe_success _ _ _ _ _ _ _ Hdecode Hmix Href Hcall).
  rewrite analyzeWithOpenAI_with_nonempty by exact Hkey.
  rewrite Hout.
  cbn. repeat split. unfold disabled. cbn.
  rewrite (is_empty_false _ Hkey), !orb_false_r. reflexivity.
Qed.

Lemma onloadend_analysis_error_witness :
  fst (onloadend (Sample.answering (Throw (TypeError "Failed to fetch"))) []
         Sample.ready) =
    Throw (TypeError "Failed to fetch") /\
  status (snd (onloadend (Sample.answering (Throw (TypeError "Failed to fetch"))) []
                 Sample.ready)) =
    "Transcription analysis in progress...".
Proof.
  pose proof (onloadend_analysis_error
                (Sample.answering (Throw (TypeError "Failed to fetch"))) []
                Sample.ready Sample.tone
                [fround (SCALING_FACTOR * (1 + 0) / 2)%float;
                 fround (SCALING_FACTOR * (0.5 + 0.5) / 2)%float]
                Sample.transcriber
                {| text := "Our meeting covered Acme Corp's new widget line" |}
                (TypeError "Failed to fetch")
                eq_refl eq_refl eq_refl eq_refl ltac:(discriminate) eq_refl) as H.
  split.
  - exact (proj1 H).
  - exact (proj1 (proj2 H)).
Defined.

(** X5. When the recorder stops and the recorded blob cannot be decoded,
    the decoder's error leaves [onloadend] uncaught, the status stays at
    transcribing, and the chunks stay in the list. *)
Theorem stop_chain_undecodable (w : World) (s : App)
    (recorder : MediaRecorder.t) (e : exn) :
  recorderRef s = Some recorder ->
  decodeAudioData w (concat (chunksRef s)) = Throw e ->
  exists s1 : App,
    onstop s = (Return (concat (chunksRef s)), s1) /\
    onloadend w (concat (chunksRef s)) s1 = (Throw e, s1) /\
    status s1 = "Transcribing audio..." /\
    chunksRef s1 = chunksRef s /\
    isRecording s1 = isRecording s.
Proof.
  intros Href Hdecode. eexists. split; [|split].
  - unfold onstop, bind, gets, modify, throw, ret. cbn. rewrite Href. reflexivity.
  - unfold onloadend, onloadend_with, transcribe, bind, await.
    rewrite Hdecode. reflexivity.
  - repeat split.
Qed.

Lemma stop_chain_undecodable_witness :
  exists s1 : App,
    onstop Sample.recording = (Return (concat (chunksRef Sample.recording)), s1) /\
    onloadend Sample.undecodable (concat (chunksRef Sample.recording)) s1 =
      (Throw (DOMException "EncodingError" "Unable to decode audio data"), s1) /\
    status s1 = "Transcribing audio..." /\
    chunksRef s1 = chunksRef Sample.recording /\
    isRecording s1 = isRecording Sample.recording.
Proof.
  apply (stop_chain_undecodable Sample.undecodable Sample.recording
           (MediaRecorder.mk 0 MediaRecorder.recording)).
  - reflexivity.
  - reflexivity.
Defined.

(** ** What holds throughout a session *)

(** No handler touches the loading flag or the transcriber. *)
Lemma handle_keeps_model (ev : event) (s : App) :
  isModelLoading (handle ev s) = isModelLoading s /\
  transcriberRef (handle ev s) = transcriberRef s.
Proof. destruct ev; take_apart; cbn; split; congruence. Qed.

Lemma after_keeps_model (evs : list event) (s : App) :
  isModelLoading (after evs s) = isModelLoading s /\
  transcriberRef (after evs s) = transcriberRef s.
Proof.
  revert s. induction evs as [|ev evs IH]; intros s; [split; reflexivity|].
  rewrite after_cons. destruct (IH (handle ev s)) as [-> ->].
  apply handle_keeps_model.
Qed.

(** X6. Once the model has failed to load nothing brings the button
    back: after any events the loading flag is still up, the button is
    disabled, no recording has started, no microphone has been asked
    for and no request has been sent. *)
Theorem failed_load_is_final (w : World) (e : exn) (evs : list event) :
  pipeline w = Throw e ->
  let s := session w evs in
  isModelLoading s = true /\
  disabled s = true /\
  isRecording s = false /\
  recorderRef s = None /\
  streams s = [] /\
  network s = [].
Proof.
  intros Hload s.
  assert (Hinv : isModelLoading s = true /\ isRecording s = false /\
                 recorderRef s = None /\ streams s = [] /\
                 transcriberRef s = None /\ network s = []).
  { subst s. unfold session.
    assert (H0 : let s0 := snd (initTranscriber w initial) in
                 isModelLoading s0 = true /\ isRecording s0 = false /\
                 recorderRef s0 = None /\ streams s0 = [] /\
                 transcriberRef s0 = None /\ network s0 = []).
    { unfold initTranscriber, try_catch, bind, modify, await. rewrite Hload.
      cbn. repeat split. }
    cbv zeta in H0. revert H0. generalize (snd (initTranscriber w initial)).
    induction evs as [|ev evs IH]; intros s0 H0; [exact H0|].
    rewrite after_cons. apply IH.
    destruct H0 as (Hml & Hrec & Href & Hstr & Htr & Hnet).
    destruct ev; unfold handle, click, disabled, onstop, onloadend_with, transcribe,
      ondataavailable, bind, gets, modify, await, throw, ret, id;
      rewrite ?Hml, ?Href, ?Htr; cbn [orb fst snd]; take_apart; cbn in *;
      repeat split; (assumption || congruence). }
  destruct Hinv as (Hml & Hrec & Href & Hstr & _ & Hnet).
  repeat split; try assumption.
  unfold disabled. rewrite Hml. reflexivity.
Qed.

Lemma failed_load_is_final_witness :
  isModelLoading (session Scenario.offline [KeyTyped "sk-test"; Pressed Sample.world]) = true /\
  isRecording (session Scenario.offline [KeyTyped "sk-test"; Pressed Sample.world]) = false.
Proof.
  pose proof (failed_load_is_final Scenario.offline (TypeError "Failed to fetch")
                [KeyTyped "sk-test"; Pressed Sample.world] eq_refl) as H.
  split.
  - exact (proj1 H).
  - exact (proj1 (proj2 (proj2 H))).
Defined.

(** X7. In every session, whenever the loading flag is down the
    transcriber reference holds the pipeline that was loaded: from the
    moment the button can be enabled, the check of line 157 passes. *)
Theorem loaded_model_has_transcriber (w : World) (evs : list event) :
  isModelLoading (session w evs) = false ->
  exists transcriber : Transcriber,
    pipeline w = Return transcriber /\
    transcriberRef (session w evs) = Some transcriber.
Proof.
  unfold session.
  destruct (after_keeps_model evs (snd (initTranscriber w initial))) as [-> ->].
  unfold initTranscriber, try_catch, bind, modify, await.
  destruct (pipeline w) as [transcriber|e]; cbn.
  - intros _. exists transcriber. split; reflexivity.
  - discriminate.
Qed.

Lemma loaded_model_has_transcriber_witness :
  exists transcriber : Transcriber,
    pipeline Sample.world = Return transcriber /\
    transcriberRef (session Sample.world [KeyTyped "sk-test"; Pressed Sample.world]) =
      Some transcriber.
Proof.
  apply (loaded_model_has_transcriber Sample.world
           [KeyTyped "sk-test"; Pressed Sample.world]).
  reflexivity.
Defined.

Lemma handle_requests (ev : event) (s : App) :
  Forall is_chat_request (network s) ->
  Forall is_chat_request (network (handle ev s)).
Proof.
  intros Hnet.
  destruct ev; take_apart; cbn in *; try assumption;
    (apply Forall_app; split; [assumption|]);
    (constructor; [|constructor]);
    eexists _, _; (split; [|reflexivity]);
    intros Hkey; rewrite Hkey in *; discriminate.
Qed.

(** X8. Every request a session sends is the chat-completion request of
    lines 55-87 for some transcript and some credential that is not
    empty: nothing goes to another address and nothing goes out without
    a credential. *)
Theorem session_requests (w : World) (evs : list event) :
  Forall is_chat_request (network (session w evs)).
Proof.
  unfold session.
  assert (H0 : Forall is_chat_request (network (snd (initTranscriber w initial)))).
  { unfold initTranscriber, try_catch, bind, modify, await.
    destruct (pipeline w); cbn; constructor. }
  revert H0. generalize (snd (initTranscriber w initial)).
  induction evs as [|ev evs IH]; intros s H0; [exact H0|].
  rewrite after_cons. apply IH. apply handle_requests. exact H0.
Qed.

Lemma handle_lowers_flag (ev : event) (s : App) :
  isAnalyzing s = false -> isAnalyzing (handle ev s) = false.
Proof. intros Hflag. destruct ev; take_apart; cbn; congruence. Qed.

Lemma after_lowers_flag (evs : list event) (s : App) :
  isAnalyzing s = false -> isAnalyzing (after evs s) = false.
Proof.
  revert s. induction evs as [|ev evs IH]; intros s H; [exact H|].
  rewrite after_cons. apply IH. apply handle_lowers_flag. exact H.
Qed.

Lemma mounted_flag_down (w : World) :
  isAnalyzing (snd (initTranscriber w initial)) = false.
Proof.
  unfold initTranscriber, try_catch, bind, modify, await.
  destruct (pipeline w); reflexivity.
Qed.

(** The reader's callback is its two halves, one after the other. *)
Lemma onloadend_with_split (key : string) (w : World) (arrayBuffer : Blob)
    (s : App) :
  onloadend_with key w arrayBuffer s =
    bind (onloadend_begin key w arrayBuffer)
      (fun transcript =>
         onloadend_finish w (fetch w (chat_request key transcript))) s.
Proof.
  unfold onloadend_with, onloadend_begin, onloadend_finish, analyzeWithOpenAI_with,
    analyze_finish, bind.
  destruct (transcribe w arrayBuffer s) as [[transcript|e] s1]; [|reflexivity].
  destruct (is_empty key); reflexivity.
Qed.

(** C10. After every invocation the component makes, whether it returns
    a result or throws, the flag is down.  With a credential, as the
    closure of every accepted Record press has one, the invocation
    raises the flag with its send and its finish lowers it, from
    whatever state; and from the state of any session the flag is down
    after an invocation with any credential, an empty one included. *)
Theorem analyzeWithOpenAI_flag (key : string) (w : World) (text : string) (s : App) :
  (key <> EmptyString ->
   analyzeWithOpenAI_with key w text s =
     analyze_finish w (fetch w (chat_request key text))
       (snd (analyze_send key text s)) /\
   isAnalyzing (snd (analyze_send key text s)) = true /\
   isAnalyzing (snd (analyzeWithOpenAI_with key w text s)) = false) /\
  (forall pressed : App,
     disabled pressed = false ->
     isAnalyzing (snd (analyzeWithOpenAI_with (apiKey pressed) w text s)) = false) /\
  (forall (mounted : World) (evs : list event),
     isAnalyzing (snd (analyzeWithOpenAI_with key w text (session mounted evs))) =
       false).
Proof.
  split; [|split].
  - intros Hkey. split; [exact (analyzeWithOpenAI_with_split key w text s Hkey)|].
    split; [reflexivity|].
    rewrite (analyzeWithOpenAI_with_nonempty key w text s Hkey). reflexivity.
  - intros pressed Hen.
    assert (Hkey : apiKey pressed <> EmptyString).
    { intros Hk. unfold disabled in Hen. rewrite Hk in Hen.
      rewrite orb_true_r in Hen. discriminate Hen. }
    rewrite (analyzeWithOpenAI_with_nonempty _ w text s Hkey). reflexivity.
  - intros mounted evs.
    assert (Hdown : isAnalyzing (session mounted evs) = false)
      by (apply after_lowers_flag, mounted_flag_down).
    destruct key as [|c key].
    + exact Hdown.
    + rewrite analyzeWithOpenAI_with_nonempty by discriminate. reflexivity.
Qed.

Lemma analyzeWithOpenAI_flag_witness :
  isAnalyzing (snd (analyzeWithOpenAI_with "sk-test" Sample.world "hello"
                      (setIsAnalyzing true Sample.ready))) = false /\
  isAnalyzing (snd (analyzeWithOpenAI_with (apiKey Sample.ready)
                      (Sample.answering (Throw (TypeError "Failed to fetch")))
                      "hello" Sample.ready)) = false.
Proof.
  split.
  - apply (proj1 (analyzeWithOpenAI_flag "sk-test" Sample.world "hello"
                    (setIsAnalyzing true Sample.ready))).
    discriminate.
  - apply (proj1 (proj2 (analyzeWithOpenAI_flag "sk-test"
                           (Sample.answering (Throw (TypeError "Failed to fetch")))
                           "hello" Sample.ready)) Sample.ready).
    reflexivity.
Defined.

(** X9. Between events the analyzing flag is down: whichever way a
    handler ends, it does not leave the button disabled by the flag. *)
Theorem session_flag_down (w : World) (evs : list event) :
  isAnalyzing (session w evs) = false.
Proof.
  unfold session.
  assert (H0 : isAnalyzing (snd (initTranscriber w initial)) = false).
  { unfold initTranscriber, try_catch, bind, modify, await.
    destruct (pipeline w); reflexivity. }
  revert H0. generalize (snd (initTranscriber w initial)).
  induction evs as [|ev evs IH]; intros s H0; [exact H0|].
  rewrite after_cons. apply IH. apply handle_lowers_flag. exact H0.
Qed.

(** ** A stream nobody holds *)

Lemma handle_keeps_unheld (address : nat) (ms : MediaStream) (ev : event) (s : App) :
  unheld address ms s -> unheld address ms (handle ev s).
Proof.
  intros (Hat & Hstream & Hrec).
  assert (Hlt : address < List.length (streams s))
    by (apply lookup_lt_is_Some; eauto).
  assert (Happ : forall x, (streams s ++ [x])%list !! address = Some ms)
    by (intros x; rewrite lookup_app_l by exact Hlt; exact Hat).
  assert (Halter : forall a, a <> address ->
            alter (fmap stop_track) a (streams s) !! address = Some ms)
    by (intros a Ha; rewrite list_lookup_alter_ne by exact Ha; exact Hat).
  destruct ev; take_apart; cbn in *; unfold unheld; cbn;
    repeat match goal with
           | H : recorderRef s = Some ?r |- _ =>
               pose proof (Hrec r H); clear H
           end;
    (split; [|split]);
    try assumption;
    try (apply Happ);
    try (apply Halter; congruence);
    try (intros ? [= <-]; cbn; lia);
    try (intros [= ?]; lia);
    try congruence;
    try (intros r Hr; simplify_eq; cbn; first [lia | eapply Hrec; congruence]).
Qed.

Lemma after_keeps_unheld (address : nat) (ms : MediaStream) (evs : list event)
    (s : App) :
  unheld address ms s -> unheld address ms (after evs s).
Proof.
  revert s. induction evs as [|ev evs IH]; intros s H; [exact H|].
  rewrite after_cons. apply IH. apply handle_keeps_unheld. exact H.
Qed.

(** X10. When [getUserMedia] has given a stream and the recorder cannot
    be made for it, [startRecording] throws with the stream acquired and
    nothing referring to it; whatever happens afterwards, no handler
    stops its tracks. *)
Theorem unsupported_recorder_leaks_stream (w : World) (s : App) (ms : MediaStream)
    (evs : list event) :
  getUserMedia w = Return ms ->
  webm_opus_supported w = false ->
  references_in_range s ->
  let s' := snd (startRecording w s) in
  fst (startRecording w s) =
    Throw (DOMException "NotSupportedError" "mimeType is not supported") /\
  isRecording s' = isRecording s /\
  recorderRef s' = recorderRef s /\
  stream s' = stream s /\
  streams (after evs s') !! List.length (streams s) = Some ms.
Proof.
  intros Hmedia Hmime [Hstream Hrec] s'.
  assert (Hrun : startRecording w s =
            (Throw (DOMException "NotSupportedError" "mimeType is not supported"),
             set_streams (streams s ++ [ms]) s)).
  { unfold startRecording, bind, gets, modify, await, throw, ret, id.
    rewrite Hmedia, Hmime. reflexivity. }
  subst s'. rewrite Hrun. cbn [fst snd]. repeat split.
  apply (after_keeps_unheld (List.length (streams s)) ms evs).
  split; [|split]; cbn.
  - apply list_lookup_middle. reflexivity.
  - intros H. specialize (Hstream _ H). lia.
  - intros recorder H. specialize (Hrec _ H). lia.
Qed.

Lemma unsupported_recorder_leaks_stream_witness :
  fst (startRecording Scenario.no_webm Sample.ready) =
    Throw (DOMException "NotSupportedError" "mimeType is not supported") /\
  streams (after [Pressed Sample.world; Pressed Sample.world; RecorderStopped]
             (snd (startRecording Scenario.no_webm Sample.ready)))
    !! List.length (streams Sample.ready) = Some Sample.microphone.
Proof.
  pose proof (unsupported_recorder_leaks_stream Scenario.no_webm Sample.ready
                Sample.microphone
                [Pressed Sample.world; Pressed Sample.world; RecorderStopped]
                eq_refl eq_refl) as H.
  assert (Hrange : references_in_range Sample.ready).
  { split; cbn; intros ? H'; discriminate H'. }
  split.
  - exact (proj1 (H Hrange)).
  - exact (proj2 (proj2 (proj2 (proj2 (H Hrange))))).
Defined.

Lemma handle_keeps_range (ev : event) (s : App) :
  references_in_range s -> references_in_range (handle ev s).
Proof.
  intros [Hstream Hrec].
  destruct ev; take_apart; unfold references_in_range; cbn in *;
    rewrite ?length_alter, ?length_app; cbn;
    (split; [intros ? ? | intros ? ?]); simplify_eq; cbn;
    first [ lia
          | match goal with
            | H : stream s = Some ?a |- _ => pose proof (Hstream _ H); lia
            end
          | match goal with
            | H : recorderRef s = Some ?r |- _ => pose proof (Hrec _ H); lia
            end
          | pose proof (Hstream _ eq_refl); lia
          | pose proof (Hrec _ eq_refl); cbn in *; lia ].
Qed.

(** In a session every reference to a stream points at a stream. *)
Lemma session_references_in_range (w : World) (evs : list event) :
  references_in_range (session w evs).
Proof.
  unfold session.
  assert (H0 : references_in_range (snd (initTranscriber w initial))).
  { unfold initTranscriber, try_catch, bind, modify, await.
    destruct (pipeline w); split; cbn; intros ? H; discriminate H. }
  revert H0. generalize (snd (initTranscriber w initial)).
  induction evs as [|ev evs IH]; intros s H0; [exact H0|].
  rewrite after_cons. apply IH. apply handle_keeps_range. exact H0.
Qed.

(** ** Replies without a first choice *)

(** X11. A 2xx reply whose JSON body is an object without [choices], or
    with an empty [choices] array, makes [analyzeWithOpenAI] throw the
    TypeError of the failed property read; [JSON.parse] is not reached. *)
Theorem analyzeWithOpenAI_no_choice (w : World) (text : string) (s : App)
    (response : Response.t) (props : list (string * value)) :
  apiKey s <> EmptyString ->
  fetch w (chat_request (apiKey s) text) = Return response ->
  Response.ok response = true ->
  Response.json response = Return (VObj props) ->
  (own_property "choices" props = VUndefined ->
   fst (analyzeWithOpenAI w text s) =
     Throw (TypeError "Cannot read properties of undefined (reading '0')")) /\
  (own_property "choices" props = VArr [] ->
   fst (analyzeWithOpenAI w text s) =
     Throw (TypeError "Cannot read properties of undefined (reading 'message')")).
Proof.
  intros Hkey Hfetch Hok Hjson.
  rewrite (analyzeWithOpenAI_nonempty w text s Hkey). cbn [fst].
  unfold analysis_outcome. rewrite Hfetch. cbn. rewrite Hok, Hjson. cbn.
  unfold choices0_message_content. cbn.
  split; intros ->; reflexivity.
Qed.

Lemma analyzeWithOpenAI_no_choice_witness :
  fst (analyzeWithOpenAI
         (Sample.answering (Return (Response.mk 200 (Return (VObj [("error", VStr "overloaded")])))))
         "hello" Sample.ready) =
    Throw (TypeError "Cannot read properties of undefined (reading '0')") /\
  fst (analyzeWithOpenAI
         (Sample.answering (Return (Response.mk 200 (Return (VObj [("choices", VArr [])])))))
         "hello" Sample.ready) =
    Throw (TypeError "Cannot read properties of undefined (reading 'message')").
Proof.
  split.
  - apply (proj1 (analyzeWithOpenAI_no_choice
             (Sample.answering (Return (Response.mk 200 (Return (VObj [("error", VStr "overloaded")])))))
             "hello" Sample.ready
             (Response.mk 200 (Return (VObj [("error", VStr "overloaded")])))
             [("error", VStr "overloaded")]
             ltac:(discriminate) eq_refl eq_refl eq_refl)).
    reflexivity.
  - apply (proj2 (analyzeWithOpenAI_no_choice
             (Sample.answering (Return (Response.mk 200 (Return (VObj [("choices", VArr [])])))))
             "hello" Sample.ready
             (Response.mk 200 (Return (VObj [("choices", VArr [])])))
             [("choices", VArr [])]
             ltac:(discriminate) eq_refl eq_refl eq_refl)).
    reflexivity.
Defined.

(** ** What the transcriber is given *)

(** X12. A buffer without channels makes the downmix throw; for every
    other buffer the API can hand out, whatever its channel count, the
    downmix returns exactly [decoded.length] samples. *)
Theorem downmix_length (decoded : AudioBuffer.t) :
  (AudioBuffer.channels decoded = [] ->
   downmix decoded =
     Throw (DOMException "IndexSizeError" "channel index out of range")) /\
  (AudioBuffer.channels decoded <> [] ->
   AudioBuffer.wf decoded ->
   exists audio : Float32Array.t,
     downmix decoded = Return audio /\
     List.length audio = AudioBuffer.length decoded).
Proof.
  unfold downmix, AudioBuffer.numberOfChannels, AudioBuffer.getChannelData,
    AudioBuffer.wf.
  destruct (AudioBuffer.channels decoded) as [|first [|second rest]] eqn:Hch;
    (split; [intros H; try discriminate H; reflexivity|]); intros Hne Hwf;
    try contradiction.
  - apply Forall_cons in Hwf as [Hfirst _]. exists first. split; [reflexivity|].
    exact Hfirst.
  - apply Forall_cons in Hwf as [Hfirst _].
    destruct rest as [|third rest]; cbn.
    + eexists. split; [reflexivity|].
      rewrite downmix_loop_length. unfold Float32Array.new.
      rewrite length_replicate. exact Hfirst.
    + exists first. split; [reflexivity|]. exact Hfirst.
Qed.

Lemma downmix_length_witness :
  exists audio : Float32Array.t,
    downmix Sample.tone = Return audio /\
    List.length audio = AudioBuffer.length Sample.tone.
Proof.
  apply (proj2 (downmix_length Sample.tone)).
  - discriminate.
  - repeat constructor.
Defined.

(** ** The view *)

Lemma get_index0_truthy (v : value) :
  truthy v = true -> get_index0 v = Return (first_of v).
Proof.
  unfold first_of. destruct v as [| |b|x|[|c rest]|elems|props]; cbn;
    intros H; try discriminate H; reflexivity.
Qed.

Lemma map_items_objects (second : string) (items : list (list (string * value))) :
  map_items (row second) (map VObj items) = Return (rows_of second items).
Proof.
  induction items as [|props items IH]; [reflexivity|].
  cbn. rewrite IH. reflexivity.
Qed.

Lemma rows_objects (gt0 : value -> bool) (what second : string)
    (items : list (list (string * value))) :
  rows gt0 what second (VArr (map VObj items)) =
    Return (list_slot (rows_of second items)).
Proof.
  unfold rows, length_positive, value_map. cbn.
  destruct items as [|props items]; [reflexivity|].
  cbn [map List.length Nat.ltb Nat.leb]. cbn.
  rewrite map_items_objects. reflexivity.
Qed.

(** The button of the view is the one [click] presses. *)
Lemma render_button (gt0 : value -> bool) (w : World) (s : App) (v : View) :
  render gt0 s = Return v ->
  button_disabled v = disabled s /\
  click w s =
    (if button_disabled v then (Return tt, s)
     else match button_onClick v with
          | handler_stopRecording => stopRecording s
          | handler_startRecording => startRecording w s
          end).
Proof.
  intros H. unfold render in H.
  destruct (get_prop (analysis s) "contextualAnalysis"); cbn in H;
    [|discriminate].
  destruct (guarded _ _); cbn in H; [|discriminate].
  injection H as <-. cbn [button_disabled button_onClick].
  split; [reflexivity|].
  unfold click, onClick.
  destruct (disabled s), (isRecording s); reflexivity.
Qed.

(** X13. When the result has no truthy [contextualAnalysis], the whole
    analysis block is left out and the render returns, whatever the
    companies, products and insights hold. *)
Theorem render_without_overview (gt0 : value -> bool) (s : App)
    (props : list (string * value)) :
  analysis s = VObj props ->
  truthy (own_property "contextualAnalysis" props) = false ->
  outcome_map analysis_block (render gt0 s) =
    Return (hidden (own_property "contextualAnalysis" props)).
Proof.
  intros Han Hfalsy. unfold render, guarded. rewrite Han. cbn.
  rewrite Hfalsy. reflexivity.
Qed.

Lemma render_without_overview_witness :
  outcome_map analysis_block
    (render Scenario.gt0
       (setAnalysis
          (VObj [("companies", VArr [VObj [("name", VStr "Acme Corp")]])])
          Sample.ready)) =
    Return (hidden VUndefined).
Proof.
  apply (render_without_overview Scenario.gt0
           (setAnalysis
              (VObj [("companies", VArr [VObj [("name", VStr "Acme Corp")]])])
              Sample.ready)
           [("companies", VArr [VObj [("name", VStr "Acme Corp")]])]).
  - reflexivity.
  - reflexivity.
Defined.

(** X14. With a truthy overview, a result that lacks [companies] makes
    the render throw on [companies.length], and one with a [companies]
    array but no [products] makes it throw on [products.length]. *)
Theorem render_needs_lists (gt0 : value -> bool) (s : App)
    (props : list (string * value)) :
  analysis s = VObj props ->
  truthy (own_property "contextualAnalysis" props) = true ->
  (own_property "companies" props = VUndefined ->
   render gt0 s =
     Throw (TypeError "Cannot read properties of undefined (reading 'length')")) /\
  (forall items : list (list (string * value)),
     own_property "companies" props = VArr (map VObj items) ->
     own_property "products" props = VUndefined ->
     render gt0 s =
       Throw (TypeError "Cannot read properties of undefined (reading 'length')")).
Proof.
  intros Han Htruthy. unfold render, guarded, analysis_panel. rewrite Han. cbn.
  rewrite Htruthy, (get_index0_truthy _ Htruthy). cbn. split.
  - intros ->. reflexivity.
  - intros items -> ->. rewrite rows_objects. reflexivity.
Qed.

Lemma render_needs_lists_witness :
  render Scenario.gt0
    (setAnalysis (VObj [("contextualAnalysis", VStr "A product meeting.")])
       Sample.ready) =
    Throw (TypeError "Cannot read properties of undefined (reading 'length')").
Proof.
  apply (proj1 (render_needs_lists Scenario.gt0
                  (setAnalysis
                     (VObj [("contextualAnalysis", VStr "A product meeting.")])
                     Sample.ready)
                  [("contextualAnalysis", VStr "A product meeting.")]
                  eq_refl eq_refl)).
  reflexivity.
Defined.

(** [s[0]] is one UTF-16 code unit: one byte for a letter of ASCII, the
    two bytes of an accented letter, and for a character above U+FFFF
    (here U+1F600, bytes F0 9F 98 80) its high surrogate (U+D83D, bytes
    ED A0 BD). *)
Example first_code_unit_samples :
  first_code_unit "Overview" = "O" /\
  first_code_unit
    (String (ascii_of_nat 195) (String (ascii_of_nat 169) "t")) =
    String (ascii_of_nat 195) (String (ascii_of_nat 169) EmptyString) /\
  first_code_unit
    (String (ascii_of_nat 240) (String (ascii_of_nat 159)
       (String (ascii_of_nat 152) (String (ascii_of_nat 128) "!")))) =
    String (ascii_of_nat 237) (String (ascii_of_nat 160)
      (String (ascii_of_nat 189) EmptyString)).
Proof. repeat split. Qed.

(** X15. For a result with a truthy overview whose [companies] and
    [products] are arrays of objects, the render returns: the block
    shows [contextualAnalysis[0]], each company as its name and industry
    and each product as its name and descriptions, in order, and leaves
    out a list that is empty and insights that are falsy. *)
Theorem render_expected_shape (gt0 : value -> bool) (s : App)
    (props : list (string * value)) (cs ps : list (list (string * value))) :
  analysis s = VObj props ->
  truthy (own_property "contextualAnalysis" props) = true ->
  own_property "companies" props = VArr (map VObj cs) ->
  own_property "products" props = VArr (map VObj ps) ->
  get_index0 (own_property "contextualAnalysis" props) =
    Return (first_of (own_property "contextualAnalysis" props)) /\
  outcome_map analysis_block (render gt0 s) =
    Return
      (shown
         {| overview := first_of (own_property "contextualAnalysis" props);
            companies := list_slot (rows_of "industry" cs);
            products := list_slot (rows_of "descriptions" ps);
            insights :=
              if truthy (own_property "relatedInfo" props)
              then shown (first_of (own_property "relatedInfo" props))
              else hidden (own_property "relatedInfo" props) |}).
Proof.
  intros Han Htruthy Hcs Hps. split; [exact (get_index0_truthy _ Htruthy)|].
  unfold render, guarded, analysis_panel. rewrite Han. cbn.
  rewrite Htruthy, (get_index0_truthy _ Htruthy). cbn.
  rewrite Hcs, Hps, !rows_objects. cbn. unfold guarded.
  destruct (truthy (own_property "relatedInfo" props)) eqn:Hinfo; cbn.
  - rewrite (get_index0_truthy _ Hinfo). reflexivity.
  - reflexivity.
Qed.

Lemma render_expected_shape_witness :
  outcome_map analysis_block
    (render Scenario.gt0 (setAnalysis (VObj Scenario.acme) Sample.ready)) =
    Return
      (shown
         {| overview := VStr "A product meeting.";
            companies := shown [(VStr "Acme Corp", VStr "Manufacturing")];
            products := hidden (VBool false);
            insights := shown (VStr "Widgets are in demand.") |}).
Proof.
  apply (proj2 (render_expected_shape Scenario.gt0
                  (setAnalysis (VObj Scenario.acme) Sample.ready) Scenario.acme
                  [[("name", VStr "Acme Corp"); ("industry", VStr "Manufacturing")]]
                  [] eq_refl eq_refl eq_refl eq_refl)).
Defined.

(** X16. A 2xx reply whose content is JSON that parses to [null] passes
    every check: [onloadend] returns with the status at done, and the
    render of the state it leaves throws on [analysis.contextualAnalysis]. *)
Theorem null_analysis_breaks_render (w : World) (arrayBuffer : Blob) (s : App)
    (decoded : AudioBuffer.t) (audio : Float32Array.t)
    (transcriber : Transcriber) (r : Transcript)
    (response : Response.t) (data content : value) (gt0 : value -> bool) :
  decodeAudioData w arrayBuffer = Return decoded ->
  downmix decoded = Return audio ->
  transcriberRef s = Some transcriber ->
  transcriber audio transcriber_options = Return r ->
  apiKey s <> EmptyString ->
  fetch w (chat_request (apiKey s) (text r)) = Return response ->
  Response.ok response = true ->
  Response.json response = Return data ->
  choices0_message_content data = Return content ->
  JSON_parse w content = Return VNull ->
  fst (onloadend w arrayBuffer s) = Return tt /\
  status (snd (onloadend w arrayBuffer s)) = "Transcription analysis done!" /\
  render gt0 (snd (onloadend w arrayBuffer s)) =
    Throw (TypeError "Cannot read properties of null (reading 'contextualAnalysis')").
Proof.
  intros Hdecode Hmix Href Hcall Hkey Hfetch Hok Hjson Hcontent Hparse.
  unfold onloadend.
  rewrite (onloadend_returns _ _ _ _ _ _ _ _ _ _ _ _ Hdecode Hmix Href Hcall Hkey
             Hfetch Hok Hjson Hcontent Hparse).
  repeat split.
Qed.

Lemma null_analysis_breaks_render_witness :
  render Scenario.gt0
    (snd (onloadend
            (Sample.answering (Return (Response.mk 200 (Return (Sample.completion (VStr "null"))))))
            [] Sample.ready)) =
    Throw (TypeError "Cannot read properties of null (reading 'contextualAnalysis')").
Proof.
  apply (proj2 (proj2 (null_analysis_breaks_render
           (Sample.answering (Return (Response.mk 200 (Return (Sample.completion (VStr "null"))))))
           [] Sample.ready Sample.tone
           [fround (SCALING_FACTOR * (1 + 0) / 2)%float;
            fround (SCALING_FACTOR * (0.5 + 0.5) / 2)%float]
           Sample.transcriber
           {| text := "Our meeting covered Acme Corp's new widget line" |}
           (Response.mk 200 (Return (Sample.completion (VStr "null"))))
           (Sample.completion (VStr "null")) (VStr "null") Scenario.gt0
           eq_refl eq_refl eq_refl eq_refl ltac:(discriminate)
           eq_refl eq_refl eq_refl eq_refl eq_refl))).
Defined.

(** ** The button over a session *)

(** X17. Between events of a session the button is disabled exactly when
    the model did not load or the credential field is empty. *)
Theorem session_button (w : World) (evs : list event) :
  disabled (session w evs) =
    match pipeline w with
    | Return _ => false
    | Throw _ => true
    end || is_empty (apiKey (session w evs)).
Proof.
  assert (Hflag : isAnalyzing (session w evs) = false).
  { unfold session.
    assert (H0 : isAnalyzing (snd (initTranscriber w initial)) = false).
    { unfold initTranscriber, try_catch, bind, modify, await.
      destruct (pipeline w); reflexivity. }
    revert H0. generalize (snd (initTranscriber w initial)).
    induction evs as [|ev evs IH]; intros s H0; [exact H0|].
    rewrite after_cons. apply IH. apply handle_lowers_flag. exact H0. }
  unfold disabled. rewrite Hflag, orb_false_r. f_equal.
  unfold session.
  rewrite (proj1 (after_keeps_model evs (snd (initTranscriber w initial)))).
  unfold initTranscriber, try_catch, bind, modify, await.
  destruct (pipeline w); reflexivity.
Qed.

(** X18. When the recorder is already inactive while [isRecording] is
    still true, a press of the enabled button runs [stopRecording],
    which throws on [requestData] and changes nothing: the button keeps
    showing Stop however often it is pressed. *)
Theorem inactive_recorder_blocks_button (ws : list World) (s : App) (address : nat) :
  recorderRef s = Some (MediaRecorder.mk address MediaRecorder.inactive) ->
  isRecording s = true ->
  disabled s = false ->
  (forall w : World,
     click w s =
       (Throw (DOMException "InvalidStateError"
                 "The MediaRecorder's state is 'inactive'."), s)) /\
  after (map Pressed ws) s = s.
Proof.
  intros Href Hrec Hen.
  assert (Hclick : forall w : World,
            click w s =
              (Throw (DOMException "InvalidStateError"
                        "The MediaRecorder's state is 'inactive'."), s)).
  { intros w. unfold click, onClick. rewrite Hen, Hrec.
    unfold stopRecording, stopRecording_with, requestData, bind, gets, throw.
    rewrite Href, Hrec. reflexivity. }
  split; [exact Hclick|].
  induction ws as [|w ws IH]; [reflexivity|].
  cbn [map]. rewrite after_cons. cbn [handle]. rewrite Hclick. exact IH.
Qed.

Lemma inactive_recorder_blocks_button_witness :
  after (map Pressed [Sample.world; Sample.denied])
    (set_recorderRef (Some (MediaRecorder.mk 0 MediaRecorder.inactive))
       Sample.recording) =
    set_recorderRef (Some (MediaRecorder.mk 0 MediaRecorder.inactive))
      Sample.recording.
Proof.
  apply (proj2 (inactive_recorder_blocks_button [Sample.world; Sample.denied]
                  (set_recorderRef (Some (MediaRecorder.mk 0 MediaRecorder.inactive))
                     Sample.recording)
                  0 eq_refl eq_refl eq_refl)).
Defined.
